(** * joystick: the state folder, the event handler and the asynchronously
    updated state of [js.h] / [f710.h], embedded in Rocq.

    Integers are [Z] with the C conversions written out, the axes array is a
    list of fixed length, and every call into libc or the kernel
    ([read], [thrd_create], [thrd_join], [mtx_*]) takes the result of that
    call as an argument, so that each function is a pure function of the
    state it is given and of what the environment answers. *)

From Stdlib Require Import ZArith Lia Bool String.
From stdpp Require Import base numbers list.

Local Open Scope Z_scope.

(** ** Result codes ([js.h]) *)

Inductive JsResult : Set :=
  | JsResult_success
  | JsResult_nothing
  | JsResult_stop
  | JsResult_failure.

Definition JsResult_eqb (a b : JsResult) : bool :=
  match a, b with
  | JsResult_success, JsResult_success
  | JsResult_nothing, JsResult_nothing
  | JsResult_stop, JsResult_stop
  | JsResult_failure, JsResult_failure => true
  | _, _ => false
  end.

(** ** Machine integers *)

Module CInt.

(** Conversion to [uint32_t]: reduction modulo 2^32. *)
Definition to_uint32 (z : Z) : Z := z mod 2 ^ 32.

(** Conversion to a 32-bit [int], two's complement. *)
Definition to_int (z : Z) : Z := (z + 2 ^ 31) mod 2 ^ 32 - 2 ^ 31.

(** [a << n] on [int]; a result that does not fit wraps to the value with
    the same low 32 bits, which is what gcc and clang produce for
    [1 << 31]. *)
Definition shl (a n : Z) : Z := to_int (Z.shiftl a n).

(** [~a] on [int]. *)
Definition not (a : Z) : Z := Z.lnot a.

(** A C condition: any nonzero value is true. *)
Definition truthy (z : Z) : bool := negb (z =? 0).

Definition is_uint32 (z : Z) : Prop := 0 <= z < 2 ^ 32.
Definition is_int16 (z : Z) : Prop := - 2 ^ 15 <= z < 2 ^ 15.
Definition is_uint8 (z : Z) : Prop := 0 <= z < 2 ^ 8.

End CInt.

(** ** Events: [struct js_event] and the type bits of [linux/joystick.h] *)

Definition JS_EVENT_BUTTON : Z := 0x01.
Definition JS_EVENT_AXIS : Z := 0x02.
Definition JS_EVENT_INIT : Z := 0x80.

Record JsEvent : Set := mkJsEvent {
  ev_time : Z;    (* __u32 time: event timestamp in milliseconds *)
  ev_value : Z;   (* __s16 value *)
  ev_type : Z;    (* __u8 type *)
  ev_number : Z   (* __u8 number: axis or button index *)
}.

Definition JsEvent_wf (e : JsEvent) : Prop :=
  CInt.is_uint32 (ev_time e) /\ CInt.is_int16 (ev_value e) /\
  CInt.is_uint8 (ev_type e) /\ CInt.is_uint8 (ev_number e).

(** ** Joystick state ([js.h]) *)

Definition js_max_number_of_buttons : Z := 32.
Definition js_max_number_of_axes : Z := 8.

Record JsState : Type := mkJsState {
  time : Z;          (* uint32_t: time of most recent update *)
  buttons : Z;       (* uint32_t: button values, one bit each *)
  axes : list Z      (* int16_t axes[js_max_number_of_axes] *)
}.

(** What the C type of [JsState] guarantees of every value. *)
Definition JsState_wf (s : JsState) : Prop :=
  CInt.is_uint32 (time s) /\ CInt.is_uint32 (buttons s) /\
  length (axes s) = Z.to_nat js_max_number_of_axes /\
  Forall CInt.is_int16 (axes s).

(** [(JsState){}] *)
Definition JsState_zero : JsState :=
  {| time := 0; buttons := 0;
     axes := replicate (Z.to_nat js_max_number_of_axes) 0 |}.

Definition set_time (t : Z) (s : JsState) : JsState :=
  {| time := t; buttons := buttons s; axes := axes s |}.
Definition set_buttons (b : Z) (s : JsState) : JsState :=
  {| time := time s; buttons := b; axes := axes s |}.
Definition set_axes (a : list Z) (s : JsState) : JsState :=
  {| time := time s; buttons := buttons s; axes := a |}.

(** [js_update_state] ([f710.h]): the state after the call is returned next
    to the result. *)
Definition js_update_state (state : JsState) (event : JsEvent)
  : JsResult * JsState :=
  let state := set_time (ev_time event) state in
  if CInt.truthy (Z.land (ev_type event) JS_EVENT_BUTTON) then
    if ev_number event >=? js_max_number_of_buttons then
      (JsResult_failure, state)
    else if CInt.truthy (ev_value event) then
      (JsResult_success,
       set_buttons
         (Z.lor (buttons state)
                (CInt.to_uint32 (CInt.shl 1 (ev_number event)))) state)
    else
      (JsResult_success,
       set_buttons
         (Z.land (buttons state)
                 (CInt.to_uint32 (CInt.not (CInt.shl 1 (ev_number event)))))
         state)
  else if CInt.truthy (Z.land (ev_type event) JS_EVENT_AXIS) then
    if ev_number event >=? js_max_number_of_axes then
      (JsResult_failure, state)
    else
      (JsResult_success,
       set_axes (<[Z.to_nat (ev_number event) := ev_value event]> (axes state))
                state)
  else
    (JsResult_failure, state).

(** ** Reading one event ([f710.h], serial interface) *)

(** [sizeof(struct js_event)] and the two errno values of a read that would
    block, as Linux defines them. *)
Definition sizeof_JsEvent : Z := 8.
Definition EAGAIN : Z := 11.
Definition EWOULDBLOCK : Z := 11.

(** What one [read(js, event, sizeof( *event))] answers: its return value,
    [errno] after the call, and what [*event] holds after the call (the
    record that was read when the return value is [sizeof_JsEvent]). *)
Record ReadResult : Set := mkReadResult {
  rd_s : Z;
  rd_errno : Z;
  rd_event : JsEvent
}.

Definition js_get_event (r : ReadResult) : JsResult * JsEvent :=
  let s := rd_s r in
  let errno := rd_errno r in
  let event := rd_event r in
  (* valid event *)
  if s =? sizeof_JsEvent then (JsResult_success, event)
  (* not enough bytes *)
  else if s >? 0 then (JsResult_failure, event)
  (* no event *)
  else if (s =? 0) || ((s =? -1) && ((errno =? EAGAIN) || (errno =? EWOULDBLOCK)))
  then (JsResult_nothing, event)
  (* unknown error *)
  else (JsResult_failure, event).

(** A read that delivers the whole record [e]. *)
Definition read_event (e : JsEvent) : ReadResult :=
  {| rd_s := sizeof_JsEvent; rd_errno := 0; rd_event := e |}.

(** A read on the non-blocking descriptor when the queue is empty. *)
Definition read_would_block : ReadResult :=
  {| rd_s := -1; rd_errno := EAGAIN; rd_event := mkJsEvent 0 0 0 0 |}.

(** A read that fails with [errno]. *)
Definition read_error (errno : Z) : ReadResult :=
  {| rd_s := -1; rd_errno := errno; rd_event := mkJsEvent 0 0 0 0 |}.

(** The device as the reader sees it: the answers of the reads to come, in
    order; once they are used up the queue is empty and a read would block. *)
Definition Device : Set := list ReadResult.

(** ** C11 threads: statuses, exit codes, mutexes *)

Inductive thrd_status : Set :=
  | thrd_success
  | thrd_busy
  | thrd_error
  | thrd_nomem
  | thrd_timedout.

Definition thrd_status_eqb (a b : thrd_status) : bool :=
  match a, b with
  | thrd_success, thrd_success
  | thrd_busy, thrd_busy
  | thrd_error, thrd_error
  | thrd_nomem, thrd_nomem
  | thrd_timedout, thrd_timedout => true
  | _, _ => false
  end.

Definition EXIT_SUCCESS : Z := 0.
Definition EXIT_FAILURE : Z := 1.

Definition thrd_t : Set := Z.

(** [thrd_create]: the environment answers with a status and, on success,
    the id of the thread it started; on any other status no thread was
    started and the id variable keeps its value. The result lists the status,
    the id variable after the call and the thread started, if any. *)
Definition thrd_create (answer : thrd_status) (fresh : thrd_t) (thr : thrd_t)
  : thrd_status * thrd_t * option thrd_t :=
  match answer with
  | thrd_success => (thrd_success, fresh, Some fresh)
  | _ => (answer, thr, None)
  end.

Inductive mtx_t : Set :=
  | mtx_indeterminate   (* not initialised, or destroyed *)
  | mtx_unlocked
  | mtx_locked.

Definition mtx_init (answer : thrd_status) (m : mtx_t) : thrd_status * mtx_t :=
  match answer with
  | thrd_success => (thrd_success, mtx_unlocked)
  | _ => (answer, m)
  end.

Definition mtx_lock (answer : thrd_status) (m : mtx_t) : thrd_status * mtx_t :=
  match answer with
  | thrd_success => (thrd_success, mtx_locked)
  | _ => (answer, m)
  end.

Definition mtx_unlock (answer : thrd_status) (m : mtx_t) : thrd_status * mtx_t :=
  match answer with
  | thrd_success => (thrd_success, mtx_unlocked)
  | _ => (answer, m)
  end.

Definition mtx_destroy (m : mtx_t) : mtx_t := mtx_indeterminate.

(** ** Asynchronous event handler ([f710.h]) *)

(** [struct JsEventHandler]. The pair [event_action] / [event_action_arg] is
    a function pointer with the untyped pointer it is called with; here it
    is a state-passing function on the object the pointer refers to, given
    to [js_event_handler_main] next to the handler (the object may contain
    the handler itself, as it does for [JsAsyncState]). *)
Record JsEventHandler : Set := mkJsEventHandler {
  js : Z;               (* int js *)
  thread_id : thrd_t;
  is_running : bool     (* atomic_bool *)
}.

Definition set_is_running (b : bool) (h : JsEventHandler) : JsEventHandler :=
  {| js := js h; thread_id := thread_id h; is_running := b |}.
Definition set_thread_id (t : thrd_t) (h : JsEventHandler) : JsEventHandler :=
  {| js := js h; thread_id := t; is_running := is_running h |}.

(** What the loop of the background thread meets, in order: the answer of
    its next [read], or another thread storing [false] into [is_running]
    (as [js_destroy_event_handler] does) before the loop tests it again. *)
Inductive LoopInput : Set :=
  | Input_read (r : ReadResult)
  | Input_stop_request.

(** How far the thread got on the inputs it was given. *)
Inductive ThreadRun (A : Type) : Type :=
  | Exited (return_val : Z) (event_handler : JsEventHandler) (arg : A)
  | Running (event_handler : JsEventHandler) (arg : A).
Arguments Exited {A} _ _ _.
Arguments Running {A} _ _.

Section EventHandler.

Context {A : Type}.
Variable event_action : JsEvent -> A -> JsResult * A.

(** [js_event_handler_main]: one recursive call per loop iteration;
    [thrd_sleep] only passes time. *)
Fixpoint js_event_handler_main (inputs : list LoopInput)
    (event_handler : JsEventHandler) (arg : A) : ThreadRun A :=
  if negb (is_running event_handler) then
    (* exit_success *)
    Exited EXIT_SUCCESS event_handler arg
  else
    match inputs with
    | [] => Running event_handler arg
    | Input_stop_request :: inputs' =>
        js_event_handler_main inputs' (set_is_running false event_handler) arg
    | Input_read r :: inputs' =>
        let (got, event) := js_get_event r in
        match got with
        | JsResult_success =>
            let (acted, arg') := event_action event arg in
            match acted with
            | JsResult_stop =>
                (* exit_success *)
                Exited EXIT_SUCCESS event_handler arg'
            | JsResult_failure =>
                (* exit_failure *)
                Exited EXIT_FAILURE (set_is_running false event_handler) arg'
            | _ => js_event_handler_main inputs' event_handler arg'
            end
        | JsResult_nothing =>
            js_event_handler_main inputs' event_handler arg
        | _ =>
            (* exit_failure *)
            Exited EXIT_FAILURE (set_is_running false event_handler) arg
        end
    end.

End EventHandler.

(** [js_create_event_handler]: [created] is the answer of [thrd_create] and
    [fresh] the id of the thread it starts when it succeeds. The last
    component is the thread now running [js_event_handler_main], if any. *)
Definition js_create_event_handler (created : thrd_status) (fresh : thrd_t)
    (event_handler : JsEventHandler)
  : JsResult * JsEventHandler * option thrd_t :=
  let event_handler := set_is_running true event_handler in
  let '(status, tid, task) :=
    thrd_create created fresh (thread_id event_handler) in
  let event_handler := set_thread_id tid event_handler in
  (if thrd_status_eqb status thrd_success
   then JsResult_success else JsResult_failure,
   event_handler, task).

(** [js_destroy_event_handler]: [join_result] is the answer of [thrd_join]
    and [return_val] what it stored, the value the thread returned. *)
Definition js_destroy_event_handler (join_result : thrd_status)
    (return_val : Z) (event_handler : JsEventHandler)
  : JsResult * JsEventHandler :=
  let event_handler := set_is_running false event_handler in
  (if thrd_status_eqb join_result thrd_success && (return_val =? EXIT_SUCCESS)
   then JsResult_success else JsResult_failure,
   event_handler).

Definition js_event_handler_is_running (event_handler : JsEventHandler) : bool :=
  is_running event_handler.

(** ** Asynchronously updated state ([f710.h]) *)

Record JsAsyncState : Type := mkJsAsyncState {
  lock : mtx_t;                    (* mutex for synchronization *)
  event_handler : JsEventHandler;  (* event handler *)
  state : JsState                  (* actual state *)
}.

Definition set_lock (m : mtx_t) (a : JsAsyncState) : JsAsyncState :=
  {| lock := m; event_handler := event_handler a; state := state a |}.
Definition set_event_handler (h : JsEventHandler) (a : JsAsyncState)
  : JsAsyncState :=
  {| lock := lock a; event_handler := h; state := state a |}.
Definition set_state (s : JsState) (a : JsAsyncState) : JsAsyncState :=
  {| lock := lock a; event_handler := event_handler a; state := s |}.

(** [js_async_state_event_action]: [locked] and [unlocked] are the answers
    of [mtx_lock] and [mtx_unlock]. *)
Definition js_async_state_event_action (locked unlocked : thrd_status)
    (event : JsEvent) (async_state : JsAsyncState)
  : JsResult * JsAsyncState :=
  let (l, m) := mtx_lock locked (lock async_state) in
  let async_state := set_lock m async_state in
  if negb (thrd_status_eqb l thrd_success) then
    (JsResult_failure, async_state)
  else
    let (r, s) := js_update_state (state async_state) event in
    let async_state := set_state s async_state in
    let (u, m) := mtx_unlock unlocked (lock async_state) in
    let async_state := set_lock m async_state in
    if negb (thrd_status_eqb u thrd_success) then
      (JsResult_failure, async_state)
    else
      (r, async_state).

(** How the [do ... while] loop of [js_create_async_state] ends: it falls
    through to the code after it, or the function returns failure from
    inside it. *)
Inductive DrainExit : Set :=
  | Drain_done
  | Drain_return_failure.

(** The loop that handles the initial synthetic events, one recursive call
    per iteration. With no answer left the read would block, so
    [js_get_event] gives [JsResult_nothing] and the loop breaks. *)
Fixpoint js_create_async_state_loop (device : Device) (state : JsState)
  : DrainExit * JsState * Device :=
  match device with
  | [] => (Drain_done, state, [])
  | answer :: device' =>
      let (r, event) := js_get_event answer in
      match r with
      | JsResult_success =>
          let (u, state') := js_update_state state event in
          if negb (JsResult_eqb u JsResult_success) then
            (Drain_return_failure, state', device')
          else if CInt.truthy (Z.land (ev_type event) JS_EVENT_INIT) then
            js_create_async_state_loop device' state'
          else
            (Drain_done, state', device')
      | JsResult_nothing => (Drain_done, state, device')
      | _ => (Drain_return_failure, state, device')
      end
  end.

(** [js_create_async_state]: [initialised] is the answer of [mtx_init],
    [created] and [fresh] those of [thrd_create]. Returned are the result,
    the object, what is left of the device's answers, and the background
    thread if one was started. *)
Definition js_create_async_state (device : Device)
    (initialised created : thrd_status) (fresh : thrd_t)
    (js : Z) (async_state : JsAsyncState)
  : JsResult * JsAsyncState * Device * option thrd_t :=
  let async_state := set_state JsState_zero async_state in
  (* handle initial synthetic events *)
  let '(exit, s, device) :=
    js_create_async_state_loop device (state async_state) in
  let async_state := set_state s async_state in
  match exit with
  | Drain_return_failure => (JsResult_failure, async_state, device, None)
  | Drain_done =>
      (* initialize lock *)
      let (i, m) := mtx_init initialised (lock async_state) in
      let async_state := set_lock m async_state in
      if negb (thrd_status_eqb i thrd_success) then
        (JsResult_failure, async_state, device, None)
      else
        (* create event handler *)
        let async_state :=
          set_event_handler
            {| js := js; thread_id := 0; is_running := false |} async_state in
        let '(c, h, task) :=
          js_create_event_handler created fresh (event_handler async_state) in
        let async_state := set_event_handler h async_state in
        if negb (JsResult_eqb c JsResult_success) then
          let async_state :=
            set_lock (mtx_destroy (lock async_state)) async_state in
          (JsResult_failure, async_state, device, task)
        else
          (JsResult_success, async_state, device, task)
  end.

(** [js_destroy_async_state] *)
Definition js_destroy_async_state (join_result : thrd_status) (return_val : Z)
    (async_state : JsAsyncState) : JsResult * JsAsyncState :=
  let (r, h) :=
    js_destroy_event_handler join_result return_val
      (event_handler async_state) in
  let async_state := set_event_handler h async_state in
  let async_state := set_lock (mtx_destroy (lock async_state)) async_state in
  (r, async_state).

(** [js_query_async_state]: [locked] and [unlocked] are the answers of
    [mtx_lock] and [mtx_unlock]; [out] is the caller's [*state] before the
    call. Returned are the result, the object and [*state] after the call. *)
Definition js_query_async_state (locked unlocked : thrd_status)
    (async_state : JsAsyncState) (out : JsState)
  : JsResult * JsAsyncState * JsState :=
  let (l, m) := mtx_lock locked (lock async_state) in
  let async_state := set_lock m async_state in
  if negb (thrd_status_eqb l thrd_success) then
    (JsResult_failure, async_state, out)
  else
    let out := state async_state in
    let (u, m) := mtx_unlock unlocked (lock async_state) in
    let async_state := set_lock m async_state in
    if negb (thrd_status_eqb u thrd_success) then
      (JsResult_failure, async_state, out)
    else
      (JsResult_success, async_state, out).

(** ** Notions used to state the properties *)

(** The tests [js_update_state] and [js_create_async_state] make on the type
    byte. *)
Definition has_button_bit (e : JsEvent) : Prop :=
  Z.land (ev_type e) JS_EVENT_BUTTON <> 0.
Definition has_axis_bit (e : JsEvent) : Prop :=
  Z.land (ev_type e) JS_EVENT_AXIS <> 0.
Definition flagged_init (e : JsEvent) : bool :=
  CInt.truthy (Z.land (ev_type e) JS_EVENT_INIT).

(** Folding a list of events in order, giving up at the first one that
    [js_update_state] rejects. *)
Fixpoint fold_events (s : JsState) (events : list JsEvent)
  : JsResult * JsState :=
  match events with
  | [] => (JsResult_success, s)
  | e :: events' =>
      match js_update_state s e with
      | (JsResult_success, s') => fold_events s' events'
      | rejected => rejected
      end
  end.

(** The event [e] with its type byte replaced. *)
Definition with_type (t : Z) (e : JsEvent) : JsEvent :=
  {| ev_time := ev_time e; ev_value := ev_value e;
     ev_type := t; ev_number := ev_number e |}.

(** The longest run of leading events that carry the [JS_EVENT_INIT] bit. *)
Fixpoint init_prefix (events : list JsEvent) : list JsEvent :=
  match events with
  | [] => []
  | e :: events' =>
      if flagged_init e then e :: init_prefix events'
      else []
  end.

(** The components of what [js_create_async_state] returns. *)
Definition created_result
    (c : JsResult * JsAsyncState * Device * option thrd_t) : JsResult :=
  fst (fst (fst c)).
Definition created_object
    (c : JsResult * JsAsyncState * Device * option thrd_t) : JsAsyncState :=
  snd (fst (fst c)).
Definition created_device
    (c : JsResult * JsAsyncState * Device * option thrd_t) : Device :=
  snd (fst c).
Definition created_task
    (c : JsResult * JsAsyncState * Device * option thrd_t) : option thrd_t :=
  snd c.

(** What a creation [c] that got past its drain loop has to show: the state
    it built is [s], the answers [rest] of the device are still to come, and
    it succeeded exactly when the lock and the thread could be created. *)
Definition drained_to (c : JsResult * JsAsyncState * Device * option thrd_t)
    (initialised created : thrd_status) (s : JsState) (rest : Device) : Prop :=
  state (created_object c) = s /\
  created_device c = rest /\
  (created_result c = JsResult_success
   <-> initialised = thrd_success /\ created = thrd_success).

(** A callback that counts its invocations in its argument and fails on the
    fifth. *)
Definition fail_on_fifth (event : JsEvent) (count : nat) : JsResult * nat :=
  (if (count =? 4)%nat then JsResult_failure else JsResult_success, S count).

(** A callback that counts its invocations and asks to stop on the fifth. *)
Definition stop_on_fifth (event : JsEvent) (count : nat) : JsResult * nat :=
  (if (count =? 4)%nat then JsResult_stop else JsResult_success, S count).

(** Sample data: a backlog of three synthetic events (button 2 pressed,
    axis 0 at 500, button 2 released), and an object that has not been set
    up yet. *)
Definition backlog : list JsEvent :=
  [ mkJsEvent 10 1 (Z.lor JS_EVENT_BUTTON JS_EVENT_INIT) 2;
    mkJsEvent 11 500 (Z.lor JS_EVENT_AXIS JS_EVENT_INIT) 0;
    mkJsEvent 12 0 (Z.lor JS_EVENT_BUTTON JS_EVENT_INIT) 2 ].

Definition blank : JsAsyncState :=
  {| lock := mtx_indeterminate;
     event_handler := {| js := 0; thread_id := 0; is_running := false |};
     state := {| time := 77; buttons := 77; axes := [] |} |}.

(** ** Logitech F710 layout ([f710.h]) *)

Inductive F710Button : Set :=
  | F710Button_A
  | F710Button_B
  | F710Button_X
  | F710Button_Y
  | F710Button_LB
  | F710Button_RB
  | F710Button_back
  | F710Button_start
  | F710Button_logo.

(** The shift count [k] in the enumerator's definition [(1 << k)]; it is
    the number the driver reports for that button. *)
Definition F710Button_shift (b : F710Button) : Z :=
  match b with
  | F710Button_A => 0
  | F710Button_B => 1
  | F710Button_X => 2
  | F710Button_Y => 3
  | F710Button_LB => 4
  | F710Button_RB => 5
  | F710Button_back => 6
  | F710Button_start => 7
  | F710Button_logo => 8
  end.

(** The enumerator's value, [(1 << k)]. *)
Definition F710Button_value (b : F710Button) : Z :=
  CInt.shl 1 (F710Button_shift b).

Inductive F710Axis : Set :=
  | F710Axis_left_x
  | F710Axis_left_y
  | F710Axis_LT
  | F710Axis_right_x
  | F710Axis_right_y
  | F710Axis_RT
  | F710Axis_arrow_x
  | F710Axis_arrow_y.

Definition F710Axis_value (x : F710Axis) : Z :=
  match x with
  | F710Axis_left_x => 0
  | F710Axis_left_y => 1
  | F710Axis_LT => 2
  | F710Axis_right_x => 3
  | F710Axis_right_y => 4
  | F710Axis_RT => 5
  | F710Axis_arrow_x => 6
  | F710Axis_arrow_y => 7
  end.

(** ** Joystick properties ([js.h], [f710.h]) *)

Record JsProperties : Type := mkJsProperties {
  driver_version : Z;      (* int *)
  name : list Z;           (* char name[128] *)
  number_of_buttons : Z;   (* char *)
  number_of_axes : Z       (* char *)
}.

Inductive IoctlRequest : Set :=
  | JSIOCGNAME
  | JSIOCGVERSION
  | JSIOCGBUTTONS
  | JSIOCGAXES.

(** What the four [ioctl] calls answer: the return value of each and the
    data the driver stores through the pointer argument when the call does
    not fail: the bytes of the name, the 32-bit version, and one byte each
    for the number of buttons and of axes. *)
Record IoctlAnswers : Type := mkIoctlAnswers {
  name_return : Z;
  name_data : list Z;
  version_return : Z;
  version_data : Z;
  buttons_return : Z;
  buttons_data : Z;
  axes_return : Z;
  axes_data : Z
}.

(** A stored byte read as [char], a signed 8-bit type on the targets the
    Makefile builds for: two's complement. *)
Definition to_char (z : Z) : Z := (z + 2 ^ 7) mod 2 ^ 8 - 2 ^ 7.

(** [sizeof(properties->name)], the length handed to [JSIOCGNAME]. *)
Definition sizeof_name : nat := 128.

(** The [name] array after the driver has copied [data] to its front: at
    most [sizeof_name] bytes are copied, the rest of the array is as it
    was. *)
Definition store_name (data : list Z) (old : list Z) : list Z :=
  let bytes := map to_char (take sizeof_name data) in
  bytes ++ drop (length bytes) old.

(** [js_get_properties]: the [&&] chain evaluates left to right and stops
    at the first [ioctl] whose return value is negative. Each field holds
    what was stored, read at the field's own type ([char], [int]).
    Returned are the result, [*properties] after the call and the requests
    issued, in order. *)
Definition js_get_properties (k : IoctlAnswers) (properties : JsProperties)
  : JsResult * JsProperties * list IoctlRequest :=
  if name_return k >=? 0 then
    let properties :=
      {| driver_version := driver_version properties;
         name := store_name (name_data k) (name properties);
         number_of_buttons := number_of_buttons properties;
         number_of_axes := number_of_axes properties |} in
    if version_return k >=? 0 then
      let properties :=
        {| driver_version := CInt.to_int (version_data k);
           name := name properties;
           number_of_buttons := number_of_buttons properties;
           number_of_axes := number_of_axes properties |} in
      if buttons_return k >=? 0 then
        let properties :=
          {| driver_version := driver_version properties;
             name := name properties;
             number_of_buttons := to_char (buttons_data k);
             number_of_axes := number_of_axes properties |} in
        if axes_return k >=? 0 then
          (JsResult_success,
           {| driver_version := driver_version properties;
              name := name properties;
              number_of_buttons := number_of_buttons properties;
              number_of_axes := to_char (axes_data k) |},
           [JSIOCGNAME; JSIOCGVERSION; JSIOCGBUTTONS; JSIOCGAXES])
        else
          (JsResult_failure, properties,
           [JSIOCGNAME; JSIOCGVERSION; JSIOCGBUTTONS; JSIOCGAXES])
      else
        (JsResult_failure, properties,
         [JSIOCGNAME; JSIOCGVERSION; JSIOCGBUTTONS])
    else
      (JsResult_failure, properties, [JSIOCGNAME; JSIOCGVERSION])
  else
    (JsResult_failure, properties, [JSIOCGNAME]).

(** ** The demo program ([main.c]) *)

Definition js_std_pathname : string := "/dev/input/js0"%string.

(** The value [main] prints for button [i]:
    [(state.buttons & (1 << i)) ? 1 : 0]. *)
Definition displayed_button (state : JsState) (i : Z) : Z :=
  if CInt.truthy (Z.land (buttons state) (CInt.to_uint32 (CInt.shl 1 i)))
  then 1 else 0.

(** The row of button values, [i] from 0 below [js_max_number_of_buttons]. *)
Definition displayed_buttons (state : JsState) : list Z :=
  map (displayed_button state) (seqZ 0 js_max_number_of_buttons).

(** The calls [main] makes that acquire, use or release something, or
    report an error. *)
Inductive MainCall : Set :=
  | Call_usage_message
  | Call_create_signal_handler
  | Call_signal_handler_error_message
  | Call_js_connect (pathname : string)
  | Call_connect_error_message
  | Call_js_get_properties
  | Call_properties_error_message
  | Call_js_display_properties
  | Call_js_create_async_state
  | Call_async_state_error_message
  | Call_js_query_async_state
  | Call_query_error_message
  | Call_print_state
  | Call_js_destroy_async_state
  | Call_js_disconnect
  | Call_destroy_signal_handler.

(** What [main] is answered by the functions it calls. [queries] holds the
    results of [js_query_async_state] in the iterations of the main loop
    that find [running] still true; after them SIGINT has cleared it. *)
Record MainEnv : Set := mkMainEnv {
  sigaddset_return : Z;
  create_signal_handler_return : bool;
  js_connect_return : Z;
  js_get_properties_result : JsResult;
  js_create_async_state_result : JsResult;
  queries : list JsResult
}.

(** The main loop of [main]: whether it ended by [running] becoming false
    (rather than by [goto query_async_state_error]), and the calls made. *)
Fixpoint main_loop (queries : list JsResult) : bool * list MainCall :=
  match queries with
  | [] => (true, [])
  | q :: queries' =>
      if negb (JsResult_eqb q JsResult_success) then
        (false, [Call_js_query_async_state; Call_query_error_message])
      else
        let (finished, calls) := main_loop queries' in
        (finished, Call_js_query_async_state :: Call_print_state :: calls)
  end.

(** [main]: the exit status and the calls made, in order. With [argc] at
    most 0 the C program reads [argv[1]] past the arguments; here that read
    gives the empty string. *)
Definition main (argc : Z) (argv : list string) (env : MainEnv)
  : Z * list MainCall :=
  if argc >? 2 then
    (EXIT_FAILURE, [Call_usage_message])
  else
    let pathname :=
      if argc =? 1 then js_std_pathname else nth 1 argv ""%string in
    (* install signal handler *)
    if negb (sigaddset_return env =? 0) then
      (* create_signal_handler_error *)
      (EXIT_FAILURE, [Call_signal_handler_error_message])
    else if negb (create_signal_handler_return env) then
      (* create_signal_handler_error *)
      (EXIT_FAILURE,
       [Call_create_signal_handler; Call_signal_handler_error_message])
    else if js_connect_return env <? 0 then
      (* connect_error *)
      (EXIT_FAILURE,
       [Call_create_signal_handler; Call_js_connect pathname;
        Call_connect_error_message;
        Call_destroy_signal_handler])
    else if negb (JsResult_eqb (js_get_properties_result env) JsResult_success)
    then
      (* get_properties_error *)
      (EXIT_FAILURE,
       [Call_create_signal_handler; Call_js_connect pathname;
        Call_js_get_properties; Call_properties_error_message;
        Call_js_disconnect; Call_destroy_signal_handler])
    else if negb (JsResult_eqb (js_create_async_state_result env)
                    JsResult_success)
    then
      (* create_async_state_error *)
      (EXIT_FAILURE,
       [Call_create_signal_handler; Call_js_connect pathname;
        Call_js_get_properties; Call_js_display_properties;
        Call_js_create_async_state; Call_async_state_error_message;
        Call_js_disconnect; Call_destroy_signal_handler])
    else
      let (finished, calls) := main_loop (queries env) in
      (if finished then EXIT_SUCCESS else EXIT_FAILURE,
       [Call_create_signal_handler; Call_js_connect pathname;
        Call_js_get_properties; Call_js_display_properties;
        Call_js_create_async_state]
       ++ calls
       ++ [Call_js_destroy_async_state; Call_js_disconnect;
           Call_destroy_signal_handler]).

(** The three resources [main] holds, each with the call that takes it and
    the call that gives it back. *)
Inductive MainResource : Set :=
  | Resource_signal_handler
  | Resource_joystick
  | Resource_async_state.

Definition takes (c : MainCall) (r : MainResource) : bool :=
  match c, r with
  | Call_create_signal_handler, Resource_signal_handler
  | Call_js_connect _, Resource_joystick
  | Call_js_create_async_state, Resource_async_state => true
  | _, _ => false
  end.

Definition gives_back (c : MainCall) (r : MainResource) : bool :=
  match c, r with
  | Call_destroy_signal_handler, Resource_signal_handler
  | Call_js_disconnect, Resource_joystick
  | Call_js_destroy_async_state, Resource_async_state => true
  | _, _ => false
  end.

(** A callback that only counts its invocations. *)
Definition count_events (event : JsEvent) (count : nat) : JsResult * nat :=
  (JsResult_success, S count).

(** Whether [c] gives back any of the three resources. *)
Definition is_release (c : MainCall) : bool :=
  gives_back c Resource_signal_handler
  || gives_back c Resource_joystick
  || gives_back c Resource_async_state.

(** Whether [main] got hold of resource [r] on its way to the main loop:
    the call that takes it was reached and succeeded. *)
Definition holds_after_startup (argc : Z) (env : MainEnv) (r : MainResource)
  : bool :=
  let signal_handler :=
    negb (argc >? 2) && (sigaddset_return env =? 0)
    && create_signal_handler_return env in
  let joystick := signal_handler && negb (js_connect_return env <? 0) in
  let async_state :=
    joystick
    && JsResult_eqb (js_get_properties_result env) JsResult_success
    && JsResult_eqb (js_create_async_state_result env) JsResult_success in
  match r with
  | Resource_signal_handler => signal_handler
  | Resource_joystick => joystick
  | Resource_async_state => async_state
  end.

(** Closing a side condition on concrete data by evaluation. *)
Ltac by_evaluation :=
  first
    [ reflexivity
    | vm_compute; repeat split; first [reflexivity | intros H; discriminate H]
    | vm_compute; lia ].

(** * Properties *)

(** ** Bit-level facts about the masks [js_update_state] builds *)

Section Bits.

Lemma truthy_true z : CInt.truthy z = true <-> z <> 0.
Proof.
  unfold CInt.truthy. rewrite negb_true_iff, Z.eqb_neq. tauto.
Qed.

Lemma truthy_false z : CInt.truthy z = false <-> z = 0.
Proof.
  unfold CInt.truthy. rewrite negb_false_iff, Z.eqb_eq. tauto.
Qed.

Lemma land_pow2 t k :
  0 <= k -> Z.land t (2 ^ k) = if Z.testbit t k then 2 ^ k else 0.
Proof.
  intros Hk. apply Z.bits_inj'. intros j Hj.
  rewrite Z.land_spec, Z.pow2_bits_eqb by lia.
  destruct (Z.eqb_spec k j) as [->|Hne].
  - destruct (Z.testbit t j); simpl.
    + now rewrite Z.pow2_bits_true.
    + now rewrite Z.bits_0.
  - rewrite andb_false_r.
    destruct (Z.testbit t k).
    + rewrite Z.pow2_bits_false; [reflexivity | lia].
    + now rewrite Z.bits_0.
Qed.

Lemma truthy_land_pow2 t k :
  0 <= k -> CInt.truthy (Z.land t (2 ^ k)) = Z.testbit t k.
Proof.
  intros Hk. rewrite land_pow2 by assumption.
  destruct (Z.testbit t k).
  - apply truthy_true. lia.
  - reflexivity.
Qed.

Lemma button_test t :
  CInt.truthy (Z.land t JS_EVENT_BUTTON) = Z.testbit t 0.
Proof. apply (truthy_land_pow2 t 0). lia. Qed.

Lemma axis_test t :
  CInt.truthy (Z.land t JS_EVENT_AXIS) = Z.testbit t 1.
Proof. apply (truthy_land_pow2 t 1). lia. Qed.

Lemma init_test t :
  CInt.truthy (Z.land t JS_EVENT_INIT) = Z.testbit t 7.
Proof. apply (truthy_land_pow2 t 7). lia. Qed.

(** Converting to [int] and back to [uint32_t] keeps the low 32 bits. *)
Lemma to_uint32_to_int z : CInt.to_uint32 (CInt.to_int z) = z mod 2 ^ 32.
Proof.
  unfold CInt.to_uint32, CInt.to_int.
  rewrite Zminus_mod_idemp_l. f_equal. lia.
Qed.

Lemma to_uint32_testbit z j :
  0 <= j ->
  Z.testbit (CInt.to_uint32 z) j = (j <? 32) && Z.testbit z j.
Proof.
  intros Hj. unfold CInt.to_uint32.
  destruct (Z.ltb_spec j 32).
  - now rewrite Z.mod_pow2_bits_low by lia.
  - now rewrite Z.mod_pow2_bits_high by lia.
Qed.

Lemma to_int_testbit z j :
  0 <= j < 32 -> Z.testbit (CInt.to_int z) j = Z.testbit z j.
Proof.
  intros Hj.
  rewrite <- (Z.mod_pow2_bits_low (CInt.to_int z) 32 j) by lia.
  change (CInt.to_int z mod 2 ^ 32) with (CInt.to_uint32 (CInt.to_int z)).
  rewrite to_uint32_to_int. apply Z.mod_pow2_bits_low. lia.
Qed.

(** The mask of [buttons |= (1 << number)]. *)
Lemma set_mask number :
  0 <= number < 32 -> CInt.to_uint32 (CInt.shl 1 number) = 2 ^ number.
Proof.
  intros Hn. unfold CInt.shl. rewrite to_uint32_to_int, Z.shiftl_1_l.
  apply Z.mod_small. split; [lia|].
  apply Z.pow_lt_mono_r; lia.
Qed.

(** The mask of [buttons &= ~(1 << number)], bit by bit. *)
Lemma clear_mask_testbit number j :
  0 <= number < 32 -> 0 <= j ->
  Z.testbit (CInt.to_uint32 (CInt.not (CInt.shl 1 number))) j
  = (j <? 32) && negb (j =? number).
Proof.
  intros Hn Hj. rewrite to_uint32_testbit by assumption.
  destruct (Z.ltb_spec j 32) as [Hlt|Hge]; [|reflexivity]. simpl.
  unfold CInt.not, CInt.shl.
  rewrite Z.lnot_spec, to_int_testbit, Z.shiftl_1_l by lia.
  rewrite Z.pow2_bits_eqb by lia. now rewrite Z.eqb_sym.
Qed.

Lemma is_uint32_mod z : CInt.is_uint32 z <-> z mod 2 ^ 32 = z.
Proof.
  unfold CInt.is_uint32. split.
  - apply Z.mod_small.
  - intros <-. apply Z.mod_pos_bound. lia.
Qed.

Lemma is_uint32_to_uint32 z : CInt.is_uint32 (CInt.to_uint32 z).
Proof. apply Z.mod_pos_bound. lia. Qed.

Lemma is_uint32_lor a b :
  CInt.is_uint32 a -> CInt.is_uint32 b -> CInt.is_uint32 (Z.lor a b).
Proof.
  rewrite !is_uint32_mod, <- !(Z.land_ones _ 32) by lia.
  intros Ha Hb. now rewrite Z.land_lor_distr_l, Ha, Hb.
Qed.

Lemma is_uint32_land a b :
  CInt.is_uint32 a -> CInt.is_uint32 (Z.land a b).
Proof.
  rewrite !is_uint32_mod, <- !(Z.land_ones _ 32) by lia.
  intros Ha.
  now rewrite <- Z.land_assoc, (Z.land_comm b), Z.land_assoc, Ha.
Qed.

End Bits.

(** ** The state folder, branch by branch *)

Section UpdateState.

Implicit Types (s : JsState) (e : JsEvent).

Lemma update_button_rejected s e :
  has_button_bit e -> js_max_number_of_buttons <= ev_number e ->
  js_update_state s e = (JsResult_failure, set_time (ev_time e) s).
Proof.
  intros Hb Hn. unfold js_update_state.
  apply truthy_true in Hb. rewrite Hb.
  destruct (Z.geb_spec (ev_number e) js_max_number_of_buttons); [reflexivity | lia].
Qed.

Lemma update_button_accepted s e :
  has_button_bit e -> ev_number e < js_max_number_of_buttons ->
  js_update_state s e =
  (JsResult_success,
   {| time := ev_time e;
      buttons :=
        if CInt.truthy (ev_value e)
        then Z.lor (buttons s) (CInt.to_uint32 (CInt.shl 1 (ev_number e)))
        else Z.land (buttons s)
               (CInt.to_uint32 (CInt.not (CInt.shl 1 (ev_number e))));
      axes := axes s |}).
Proof.
  intros Hb Hn. unfold js_update_state.
  apply truthy_true in Hb. rewrite Hb.
  destruct (Z.geb_spec (ev_number e) js_max_number_of_buttons); [lia|].
  now destruct (CInt.truthy (ev_value e)).
Qed.

Lemma update_axis_rejected s e :
  ~ has_button_bit e -> has_axis_bit e ->
  js_max_number_of_axes <= ev_number e ->
  js_update_state s e = (JsResult_failure, set_time (ev_time e) s).
Proof.
  intros Hb Ha Hn. unfold js_update_state.
  unfold has_button_bit in Hb. apply truthy_true in Ha.
  destruct (CInt.truthy (Z.land (ev_type e) JS_EVENT_BUTTON)) eqn:Hbt.
  { apply truthy_true in Hbt. contradiction. }
  rewrite Ha.
  destruct (Z.geb_spec (ev_number e) js_max_number_of_axes); [reflexivity | lia].
Qed.

Lemma update_axis_accepted s e :
  ~ has_button_bit e -> has_axis_bit e ->
  ev_number e < js_max_number_of_axes ->
  js_update_state s e =
  (JsResult_success,
   {| time := ev_time e;
      buttons := buttons s;
      axes := <[Z.to_nat (ev_number e) := ev_value e]> (axes s) |}).
Proof.
  intros Hb Ha Hn. unfold js_update_state.
  unfold has_button_bit in Hb. apply truthy_true in Ha.
  destruct (CInt.truthy (Z.land (ev_type e) JS_EVENT_BUTTON)) eqn:Hbt.
  { apply truthy_true in Hbt. contradiction. }
  rewrite Ha.
  destruct (Z.geb_spec (ev_number e) js_max_number_of_axes); [lia | reflexivity].
Qed.

Lemma update_unclassified_rejected s e :
  ~ has_button_bit e -> ~ has_axis_bit e ->
  js_update_state s e = (JsResult_failure, set_time (ev_time e) s).
Proof.
  intros Hb Ha. unfold js_update_state.
  unfold has_button_bit in Hb. unfold has_axis_bit in Ha.
  destruct (CInt.truthy (Z.land (ev_type e) JS_EVENT_BUTTON)) eqn:Hbt.
  { apply truthy_true in Hbt. contradiction. }
  destruct (CInt.truthy (Z.land (ev_type e) JS_EVENT_AXIS)) eqn:Hat.
  { apply truthy_true in Hat. contradiction. }
  reflexivity.
Qed.

(** The time field is written before the event is looked at. *)
Lemma update_time s e : time (snd (js_update_state s e)) = ev_time e.
Proof.
  unfold js_update_state.
  repeat match goal with |- context [if ?c then _ else _] => destruct c end;
    reflexivity.
Qed.

(** The C types of the fields are respected. *)
Lemma update_wf s e :
  JsState_wf s -> JsEvent_wf e -> JsState_wf (snd (js_update_state s e)).
Proof.
  intros (Ht & Hb & Hl & Ha) (Het & Hev & Hety & Hen).
  unfold js_update_state.
  repeat match goal with |- context [if ?c then _ else _] => destruct c end;
    simpl; unfold JsState_wf; simpl;
    (split; [|split; [|split]]); try assumption.
  - apply is_uint32_lor; [assumption | apply is_uint32_to_uint32].
  - apply is_uint32_land; assumption.
  - now rewrite length_insert.
  - apply Forall_insert; assumption.
Qed.

Lemma JsState_zero_wf : JsState_wf JsState_zero.
Proof.
  unfold JsState_wf, JsState_zero, CInt.is_uint32. simpl.
  split; [lia|]. split; [lia|]. split; [reflexivity|].
  repeat constructor; unfold CInt.is_int16; lia.
Qed.

End UpdateState.

(** ** Claims about [js_update_state] *)

Section UpdateStateClaims.

Implicit Types (s : JsState) (e : JsEvent).

Example js_update_state_press3 :
  js_update_state JsState_zero (mkJsEvent 10 1 JS_EVENT_BUTTON 3)
  = (JsResult_success, mkJsState 10 8 [0; 0; 0; 0; 0; 0; 0; 0]).
Proof. reflexivity. Qed.

Example js_update_state_press31 :
  js_update_state JsState_zero (mkJsEvent 10 1 JS_EVENT_BUTTON 31)
  = (JsResult_success, mkJsState 10 (2 ^ 31) [0; 0; 0; 0; 0; 0; 0; 0]).
Proof. reflexivity. Qed.

Example js_update_state_release31 :
  js_update_state (mkJsState 0 (2 ^ 32 - 1) [])
                  (mkJsEvent 7 0 JS_EVENT_BUTTON 31)
  = (JsResult_success, mkJsState 7 (2 ^ 31 - 1) []).
Proof. reflexivity. Qed.

Example js_update_state_axis2 :
  js_update_state JsState_zero (mkJsEvent 4 (-300) JS_EVENT_AXIS 2)
  = (JsResult_success, mkJsState 4 0 [0; 0; -300; 0; 0; 0; 0; 0]).
Proof. reflexivity. Qed.

(** C1, as stated, fails: a button event with index 32 is rejected, but
    the state after the call differs from the state before it, because the
    time field has already taken the event's timestamp. *)
Lemma js_update_state_rejected_button_moves_time :
  has_button_bit (mkJsEvent 1 1 JS_EVENT_BUTTON 32) /\
  js_max_number_of_buttons <= ev_number (mkJsEvent 1 1 JS_EVENT_BUTTON 32) /\
  fst (js_update_state JsState_zero (mkJsEvent 1 1 JS_EVENT_BUTTON 32))
  = JsResult_failure /\
  snd (js_update_state JsState_zero (mkJsEvent 1 1 JS_EVENT_BUTTON 32))
  <> JsState_zero.
Proof.
  split; [|split; [|split]].
  - by_evaluation.
  - by_evaluation.
  - reflexivity.
  - vm_compute. intros H. discriminate H.
Qed.

(** C1, amended: for every state and every button event whose index is at
    least the button capacity of 32, [js_update_state] returns
    [JsResult_failure]; the buttons bitset and the axes array are left
    unchanged, and the time field holds the event's timestamp. *)
Theorem js_update_state_button_out_of_range s e :
  has_button_bit e -> js_max_number_of_buttons <= ev_number e ->
  fst (js_update_state s e) = JsResult_failure /\
  buttons (snd (js_update_state s e)) = buttons s /\
  axes (snd (js_update_state s e)) = axes s /\
  time (snd (js_update_state s e)) = ev_time e.
Proof.
  intros Hb Hn. rewrite (update_button_rejected s e Hb Hn).
  repeat split.
Qed.

Lemma js_update_state_button_out_of_range_witness :
  fst (js_update_state (mkJsState 5 6 [1; 2; 3; 4; 5; 6; 7; 8])
                       (mkJsEvent 9 1 JS_EVENT_BUTTON 40))
  = JsResult_failure /\
  buttons (snd (js_update_state (mkJsState 5 6 [1; 2; 3; 4; 5; 6; 7; 8])
                                (mkJsEvent 9 1 JS_EVENT_BUTTON 40))) = 6 /\
  axes (snd (js_update_state (mkJsState 5 6 [1; 2; 3; 4; 5; 6; 7; 8])
                             (mkJsEvent 9 1 JS_EVENT_BUTTON 40)))
  = [1; 2; 3; 4; 5; 6; 7; 8] /\
  time (snd (js_update_state (mkJsState 5 6 [1; 2; 3; 4; 5; 6; 7; 8])
                             (mkJsEvent 9 1 JS_EVENT_BUTTON 40))) = 9.
Proof.
  apply (js_update_state_button_out_of_range
           (mkJsState 5 6 [1; 2; 3; 4; 5; 6; 7; 8])
           (mkJsEvent 9 1 JS_EVENT_BUTTON 40)).
  - by_evaluation.
  - by_evaluation.
Defined.

(** C5: for every state and every button event whose index is below 32,
    [js_update_state] returns [JsResult_success], bit [number] of the
    buttons bitset is set when the event's value is nonzero and clear when
    it is zero, and the time field is the event's timestamp. *)
Theorem js_update_state_button_in_range s e :
  has_button_bit e -> 0 <= ev_number e < js_max_number_of_buttons ->
  fst (js_update_state s e) = JsResult_success /\
  (ev_value e <> 0 ->
   Z.testbit (buttons (snd (js_update_state s e))) (ev_number e) = true) /\
  (ev_value e = 0 ->
   Z.testbit (buttons (snd (js_update_state s e))) (ev_number e) = false) /\
  time (snd (js_update_state s e)) = ev_time e.
Proof.
  intros Hb Hn. unfold js_max_number_of_buttons in Hn.
  rewrite (update_button_accepted s e Hb) by apply Hn. simpl.
  split; [reflexivity|]. split; [|split; [|reflexivity]].
  - intros Hv. apply truthy_true in Hv. rewrite Hv.
    rewrite Z.lor_spec, set_mask, Z.pow2_bits_true by lia.
    apply orb_true_r.
  - intros Hv. apply truthy_false in Hv. rewrite Hv.
    rewrite Z.land_spec, clear_mask_testbit by lia.
    rewrite Z.eqb_refl. simpl. now rewrite !andb_false_r.
Qed.

Lemma js_update_state_button_in_range_witness :
  fst (js_update_state (mkJsState 0 (2 ^ 32 - 1) [0; 0; 0; 0; 0; 0; 0; 0])
                       (mkJsEvent 12 0 (Z.lor JS_EVENT_BUTTON JS_EVENT_INIT) 31))
  = JsResult_success /\
  (ev_value (mkJsEvent 12 0 (Z.lor JS_EVENT_BUTTON JS_EVENT_INIT) 31) <> 0 ->
   Z.testbit
     (buttons
        (snd (js_update_state
                (mkJsState 0 (2 ^ 32 - 1) [0; 0; 0; 0; 0; 0; 0; 0])
                (mkJsEvent 12 0 (Z.lor JS_EVENT_BUTTON JS_EVENT_INIT) 31))))
     31 = true) /\
  (ev_value (mkJsEvent 12 0 (Z.lor JS_EVENT_BUTTON JS_EVENT_INIT) 31) = 0 ->
   Z.testbit
     (buttons
        (snd (js_update_state
                (mkJsState 0 (2 ^ 32 - 1) [0; 0; 0; 0; 0; 0; 0; 0])
                (mkJsEvent 12 0 (Z.lor JS_EVENT_BUTTON JS_EVENT_INIT) 31))))
     31 = false) /\
  time (snd (js_update_state
               (mkJsState 0 (2 ^ 32 - 1) [0; 0; 0; 0; 0; 0; 0; 0])
               (mkJsEvent 12 0 (Z.lor JS_EVENT_BUTTON JS_EVENT_INIT) 31)))
  = 12.
Proof.
  apply (js_update_state_button_in_range
           (mkJsState 0 (2 ^ 32 - 1) [0; 0; 0; 0; 0; 0; 0; 0])
           (mkJsEvent 12 0 (Z.lor JS_EVENT_BUTTON JS_EVENT_INIT) 31)).
  - by_evaluation.
  - by_evaluation.
Defined.

(** C7: for every state and every axis index [i < 8], folding an axis
    event for index [i] with value [v1] and then an axis event for index
    [i] with value [v2] succeeds both times and leaves slot [i] equal to
    [v2]. *)
Theorem js_update_state_axis_overwrite s e1 e2 i :
  length (axes s) = Z.to_nat js_max_number_of_axes ->
  ~ has_button_bit e1 -> has_axis_bit e1 ->
  ~ has_button_bit e2 -> has_axis_bit e2 ->
  ev_number e1 = i -> ev_number e2 = i ->
  0 <= i < js_max_number_of_axes ->
  fst (js_update_state s e1) = JsResult_success /\
  fst (js_update_state (snd (js_update_state s e1)) e2) = JsResult_success /\
  axes (snd (js_update_state (snd (js_update_state s e1)) e2))
    !! Z.to_nat i = Some (ev_value e2).
Proof.
  intros Hlen Hb1 Ha1 Hb2 Ha2 Hn1 Hn2 Hi.
  rewrite (update_axis_accepted s e1 Hb1 Ha1) by lia. simpl.
  rewrite (update_axis_accepted _ e2 Hb2 Ha2) by lia. simpl.
  split; [reflexivity|]. split; [reflexivity|].
  rewrite Hn2. apply list_lookup_insert_eq.
  rewrite length_insert, Hlen.
  unfold js_max_number_of_axes in *. lia.
Qed.

Lemma js_update_state_axis_overwrite_witness :
  fst (js_update_state JsState_zero (mkJsEvent 1 700 JS_EVENT_AXIS 7))
  = JsResult_success /\
  fst (js_update_state
         (snd (js_update_state JsState_zero (mkJsEvent 1 700 JS_EVENT_AXIS 7)))
         (mkJsEvent 2 (-45) JS_EVENT_AXIS 7)) = JsResult_success /\
  axes (snd (js_update_state
               (snd (js_update_state JsState_zero
                       (mkJsEvent 1 700 JS_EVENT_AXIS 7)))
               (mkJsEvent 2 (-45) JS_EVENT_AXIS 7)))
    !! Z.to_nat 7 = Some (-45).
Proof.
  apply (js_update_state_axis_overwrite JsState_zero
           (mkJsEvent 1 700 JS_EVENT_AXIS 7)
           (mkJsEvent 2 (-45) JS_EVENT_AXIS 7) 7); by_evaluation.
Defined.

(** C8: [js_update_state] is idempotent on in-range button events: for
    every state and every button event with index below 32, folding the
    event a second time gives the same result and the same state as
    folding it once. *)
Theorem js_update_state_button_idempotent s e :
  has_button_bit e -> ev_number e < js_max_number_of_buttons ->
  fst (js_update_state s e) = JsResult_success /\
  js_update_state (snd (js_update_state s e)) e = js_update_state s e.
Proof.
  intros Hb Hn.
  rewrite (update_button_accepted s e Hb Hn). simpl.
  split; [reflexivity|].
  rewrite (update_button_accepted _ e Hb Hn). simpl.
  do 2 f_equal.
  destruct (CInt.truthy (ev_value e)).
  - now rewrite <- Z.lor_assoc, Z.lor_diag.
  - now rewrite <- Z.land_assoc, Z.land_diag.
Qed.

Lemma js_update_state_button_idempotent_witness :
  fst (js_update_state (mkJsState 3 5 [0; 0; 0; 0; 0; 0; 0; 0])
                       (mkJsEvent 8 1 JS_EVENT_BUTTON 4))
  = JsResult_success /\
  js_update_state
    (snd (js_update_state (mkJsState 3 5 [0; 0; 0; 0; 0; 0; 0; 0])
                          (mkJsEvent 8 1 JS_EVENT_BUTTON 4)))
    (mkJsEvent 8 1 JS_EVENT_BUTTON 4)
  = js_update_state (mkJsState 3 5 [0; 0; 0; 0; 0; 0; 0; 0])
                    (mkJsEvent 8 1 JS_EVENT_BUTTON 4).
Proof.
  apply (js_update_state_button_idempotent
           (mkJsState 3 5 [0; 0; 0; 0; 0; 0; 0; 0])
           (mkJsEvent 8 1 JS_EVENT_BUTTON 4)); by_evaluation.
Defined.

(** C9: a successful [js_update_state] modifies only the addressed slot
    and the time field. For an in-range button event every button bit
    other than bit [number] and the whole axes array are unchanged; for an
    in-range axis event the buttons bitset and every axis slot other than
    slot [number] are unchanged. *)
Theorem js_update_state_frame s e :
  (has_button_bit e -> 0 <= ev_number e < js_max_number_of_buttons ->
   fst (js_update_state s e) = JsResult_success /\
   axes (snd (js_update_state s e)) = axes s /\
   forall j, 0 <= j < js_max_number_of_buttons -> j <> ev_number e ->
     Z.testbit (buttons (snd (js_update_state s e))) j
     = Z.testbit (buttons s) j) /\
  (~ has_button_bit e -> has_axis_bit e ->
   0 <= ev_number e < js_max_number_of_axes ->
   fst (js_update_state s e) = JsResult_success /\
   buttons (snd (js_update_state s e)) = buttons s /\
   length (axes (snd (js_update_state s e))) = length (axes s) /\
   forall j : nat, j <> Z.to_nat (ev_number e) ->
     axes (snd (js_update_state s e)) !! j = axes s !! j).
Proof.
  split.
  - intros Hb Hn. unfold js_max_number_of_buttons in *.
    rewrite (update_button_accepted s e Hb) by apply Hn. simpl.
    split; [reflexivity|]. split; [reflexivity|].
    intros j Hj Hne.
    destruct (CInt.truthy (ev_value e)).
    + rewrite Z.lor_spec, set_mask, Z.pow2_bits_false by lia.
      apply orb_false_r.
    + rewrite Z.land_spec, clear_mask_testbit by lia.
      destruct (Z.ltb_spec j 32); [|lia].
      destruct (Z.eqb_spec j (ev_number e)); [contradiction|].
      apply andb_true_r.
  - intros Hb Ha Hn.
    rewrite (update_axis_accepted s e Hb Ha) by apply Hn. simpl.
    split; [reflexivity|]. split; [reflexivity|].
    split; [apply length_insert|].
    intros j Hne. apply list_lookup_insert_ne. congruence.
Qed.

Lemma js_update_state_frame_witness :
  (fst (js_update_state (mkJsState 1 10 [1; 2; 3; 4; 5; 6; 7; 8])
                        (mkJsEvent 2 0 JS_EVENT_BUTTON 3))
   = JsResult_success /\
   axes (snd (js_update_state (mkJsState 1 10 [1; 2; 3; 4; 5; 6; 7; 8])
                              (mkJsEvent 2 0 JS_EVENT_BUTTON 3)))
   = [1; 2; 3; 4; 5; 6; 7; 8] /\
   Z.testbit
     (buttons (snd (js_update_state (mkJsState 1 10 [1; 2; 3; 4; 5; 6; 7; 8])
                                    (mkJsEvent 2 0 JS_EVENT_BUTTON 3)))) 1
   = Z.testbit 10 1) /\
  (fst (js_update_state (mkJsState 1 10 [1; 2; 3; 4; 5; 6; 7; 8])
                        (mkJsEvent 2 99 JS_EVENT_AXIS 3))
   = JsResult_success /\
   buttons (snd (js_update_state (mkJsState 1 10 [1; 2; 3; 4; 5; 6; 7; 8])
                                 (mkJsEvent 2 99 JS_EVENT_AXIS 3))) = 10 /\
   axes (snd (js_update_state (mkJsState 1 10 [1; 2; 3; 4; 5; 6; 7; 8])
                              (mkJsEvent 2 99 JS_EVENT_AXIS 3))) !! 4%nat
   = [1; 2; 3; 4; 5; 6; 7; 8] !! 4%nat).
Proof.
  split.
  - destruct (proj1 (js_update_state_frame
                       (mkJsState 1 10 [1; 2; 3; 4; 5; 6; 7; 8])
                       (mkJsEvent 2 0 JS_EVENT_BUTTON 3)))
      as (Hr & Hax & Hbits); [by_evaluation | by_evaluation |].
    split; [exact Hr|]. split; [exact Hax|].
    apply (Hbits 1); by_evaluation.
  - destruct (proj2 (js_update_state_frame
                       (mkJsState 1 10 [1; 2; 3; 4; 5; 6; 7; 8])
                       (mkJsEvent 2 99 JS_EVENT_AXIS 3)))
      as (Hr & Hb & _ & Hslots); [by_evaluation | by_evaluation | by_evaluation |].
    split; [exact Hr|]. split; [exact Hb|].
    apply (Hslots 4%nat). by_evaluation.
Defined.

(** The type byte is looked at through its button and axis bits only. *)
Lemma update_type_bits s e t t' :
  Z.testbit t 0 = Z.testbit t' 0 ->
  (Z.testbit t 0 = false -> Z.testbit t 1 = Z.testbit t' 1) ->
  js_update_state s (with_type t e) = js_update_state s (with_type t' e).
Proof.
  intros H0 H1. unfold js_update_state. simpl.
  rewrite !button_test, !axis_test, <- H0.
  destruct (Z.testbit t 0); [reflexivity|].
  now rewrite H1.
Qed.

Lemma with_type_same e : with_type (ev_type e) e = e.
Proof. now destruct e. Qed.

Lemma has_button_bit_testbit e :
  has_button_bit e <-> Z.testbit (ev_type e) 0 = true.
Proof.
  unfold has_button_bit. now rewrite <- truthy_true, button_test.
Qed.

Lemma has_axis_bit_testbit e :
  has_axis_bit e <-> Z.testbit (ev_type e) 1 = true.
Proof.
  unfold has_axis_bit. now rewrite <- truthy_true, axis_test.
Qed.

Lemma flagged_init_testbit e : flagged_init e = Z.testbit (ev_type e) 7.
Proof. apply init_test. Qed.

(** C10: [js_update_state] classifies events by bitwise test, the button
    bit first. An event whose type has bit 0 ([JS_EVENT_BUTTON]) set is
    handled as a button event whatever its other type bits are: it is
    folded exactly like the event with type [JS_EVENT_BUTTON] alone, an
    index of 32 or more is rejected, and an index below 32 is accepted,
    setting bit [number] for a nonzero value and clearing it for zero while
    all other bits and the axes stay as they were. With bit 0 clear and bit
    1 ([JS_EVENT_AXIS]) set the axis branch is taken: the event is folded
    exactly like the event with type [JS_EVENT_AXIS] alone, an index of 8 or
    more is rejected, and an index below 8 is accepted, writing the value
    into slot [number] while the buttons stay as they were. With both bits
    clear the result is [JsResult_failure]. Setting the [JS_EVENT_INIT] bit
    of an event never changes how it is folded. *)
Theorem js_update_state_classification s e :
  (Z.testbit (ev_type e) 0 = true ->
   js_update_state s e = js_update_state s (with_type JS_EVENT_BUTTON e) /\
   axes (snd (js_update_state s e)) = axes s /\
   (js_max_number_of_buttons <= ev_number e ->
    js_update_state s e = (JsResult_failure, set_time (ev_time e) s)) /\
   (0 <= ev_number e < js_max_number_of_buttons ->
    fst (js_update_state s e) = JsResult_success /\
    time (snd (js_update_state s e)) = ev_time e /\
    Z.testbit (buttons (snd (js_update_state s e))) (ev_number e)
    = negb (ev_value e =? 0) /\
    forall j, 0 <= j < js_max_number_of_buttons -> j <> ev_number e ->
      Z.testbit (buttons (snd (js_update_state s e))) j
      = Z.testbit (buttons s) j)) /\
  (Z.testbit (ev_type e) 0 = false -> Z.testbit (ev_type e) 1 = true ->
   js_update_state s e = js_update_state s (with_type JS_EVENT_AXIS e) /\
   buttons (snd (js_update_state s e)) = buttons s /\
   (js_max_number_of_axes <= ev_number e ->
    js_update_state s e = (JsResult_failure, set_time (ev_time e) s)) /\
   (ev_number e < js_max_number_of_axes ->
    js_update_state s e
    = (JsResult_success,
       {| time := ev_time e;
          buttons := buttons s;
          axes := <[Z.to_nat (ev_number e) := ev_value e]> (axes s) |}))) /\
  (Z.testbit (ev_type e) 0 = false -> Z.testbit (ev_type e) 1 = false ->
   js_update_state s e = (JsResult_failure, set_time (ev_time e) s)) /\
  js_update_state s (with_type (Z.lor (ev_type e) JS_EVENT_INIT) e)
  = js_update_state s e.
Proof.
  split; [|split; [|split]].
  - intros H0. split; [|split; [|split]].
    + rewrite <- (with_type_same e) at 1.
      apply update_type_bits; [rewrite H0; reflexivity|].
      rewrite H0. discriminate.
    + apply has_button_bit_testbit in H0.
      destruct (Z_lt_le_dec (ev_number e) js_max_number_of_buttons) as [Hn|Hn].
      * now rewrite (update_button_accepted s e H0 Hn).
      * now rewrite (update_button_rejected s e H0 Hn).
    + intros Hn. apply has_button_bit_testbit in H0.
      apply (update_button_rejected s e H0 Hn).
    + intros Hn. apply has_button_bit_testbit in H0.
      unfold js_max_number_of_buttons in *.
      rewrite (update_button_accepted s e H0) by apply Hn. simpl.
      split; [reflexivity|]. split; [reflexivity|].
      fold (CInt.truthy (ev_value e)).
      destruct (CInt.truthy (ev_value e)); split.
      * rewrite Z.lor_spec, set_mask, Z.pow2_bits_true by lia.
        apply orb_true_r.
      * intros j Hj Hne.
        rewrite Z.lor_spec, set_mask, Z.pow2_bits_false by lia.
        apply orb_false_r.
      * rewrite Z.land_spec, clear_mask_testbit by lia.
        rewrite Z.eqb_refl. simpl. now rewrite !andb_false_r.
      * intros j Hj Hne.
        rewrite Z.land_spec, clear_mask_testbit by lia.
        destruct (Z.ltb_spec j 32); [|lia].
        destruct (Z.eqb_spec j (ev_number e)); [contradiction|].
        apply andb_true_r.
  - intros H0 H1.
    assert (Hb : ~ has_button_bit e).
    { rewrite has_button_bit_testbit, H0. discriminate. }
    pose proof H1 as Ha. apply has_axis_bit_testbit in Ha.
    split; [|split; [|split]].
    + rewrite <- (with_type_same e) at 1.
      apply update_type_bits; [rewrite H0 | rewrite H1]; reflexivity.
    + destruct (Z_lt_le_dec (ev_number e) js_max_number_of_axes) as [Hn|Hn].
      * now rewrite (update_axis_accepted s e Hb Ha Hn).
      * now rewrite (update_axis_rejected s e Hb Ha Hn).
    + intros Hn. apply (update_axis_rejected s e Hb Ha Hn).
    + intros Hn. apply (update_axis_accepted s e Hb Ha Hn).
  - intros H0 H1.
    apply update_unclassified_rejected.
    + rewrite has_button_bit_testbit, H0. discriminate.
    + rewrite has_axis_bit_testbit, H1. discriminate.
  - rewrite <- (with_type_same e) at 3.
    apply update_type_bits; [|intros _]; rewrite Z.lor_spec; apply orb_false_r.
Qed.

Lemma js_update_state_classification_witness :
  (js_update_state JsState_zero (mkJsEvent 6 1 0x83 9)
   = js_update_state JsState_zero (mkJsEvent 6 1 JS_EVENT_BUTTON 9) /\
   axes (snd (js_update_state JsState_zero (mkJsEvent 6 1 0x83 9)))
   = axes JsState_zero /\
   fst (js_update_state JsState_zero (mkJsEvent 6 1 0x83 9))
   = JsResult_success /\
   Z.testbit (buttons (snd (js_update_state JsState_zero
                              (mkJsEvent 6 1 0x83 9)))) 9
   = negb (1 =? 0)) /\
  js_update_state JsState_zero (mkJsEvent 6 1 0x83 32)
  = (JsResult_failure, set_time 6 JsState_zero) /\
  (js_update_state JsState_zero (mkJsEvent 6 1 0x82 2)
   = js_update_state JsState_zero (mkJsEvent 6 1 JS_EVENT_AXIS 2) /\
   buttons (snd (js_update_state JsState_zero (mkJsEvent 6 1 0x82 2)))
   = buttons JsState_zero /\
   js_update_state JsState_zero (mkJsEvent 6 1 0x82 2)
   = (JsResult_success,
      {| time := 6; buttons := 0; axes := [0; 0; 1; 0; 0; 0; 0; 0] |})) /\
  js_update_state JsState_zero (mkJsEvent 6 1 0x82 8)
  = (JsResult_failure, set_time 6 JsState_zero) /\
  js_update_state JsState_zero (mkJsEvent 6 1 0x80 2)
  = (JsResult_failure, set_time 6 JsState_zero).
Proof.
  split; [|split; [|split; [|split]]].
  - destruct (proj1 (js_update_state_classification JsState_zero
                       (mkJsEvent 6 1 0x83 9)))
      as (Hsame & Haxes & _ & Hin); [by_evaluation|].
    destruct Hin as (Hr & _ & Hbit & _); [by_evaluation|].
    split; [exact Hsame|]. split; [exact Haxes|].
    split; [exact Hr | exact Hbit].
  - destruct (proj1 (js_update_state_classification JsState_zero
                       (mkJsEvent 6 1 0x83 32)))
      as (_ & _ & Hout & _); [by_evaluation|].
    apply Hout. by_evaluation.
  - destruct (proj1 (proj2 (js_update_state_classification JsState_zero
                              (mkJsEvent 6 1 0x82 2))))
      as (Hsame & Hbuttons & _ & Hin); [by_evaluation | by_evaluation |].
    split; [exact Hsame|]. split; [exact Hbuttons|].
    apply Hin. by_evaluation.
  - destruct (proj1 (proj2 (js_update_state_classification JsState_zero
                              (mkJsEvent 6 1 0x82 8))))
      as (_ & _ & Hout & _); [by_evaluation | by_evaluation |].
    apply Hout. by_evaluation.
  - apply (proj1 (proj2 (proj2 (js_update_state_classification JsState_zero
                                  (mkJsEvent 6 1 0x80 2))))); by_evaluation.
Defined.

End UpdateStateClaims.

(** ** Claims about the event handler *)

Section EventHandlerClaims.

Context {A : Type}.
Variable event_action : JsEvent -> A -> JsResult * A.

Implicit Types (h : JsEventHandler) (a : A) (inputs : list LoopInput).

Lemma main_stopped inputs h a :
  is_running h = false ->
  js_event_handler_main event_action inputs h a = Exited EXIT_SUCCESS h a.
Proof. intros Hr. destruct inputs; simpl; now rewrite Hr. Qed.

(** Running the loop on [before ++ after] is running it on [before] and,
    if it has not exited by then, going on with [after]. *)
Lemma main_app before after h a :
  js_event_handler_main event_action (before ++ after) h a =
  match js_event_handler_main event_action before h a with
  | Running h1 a1 => js_event_handler_main event_action after h1 a1
  | Exited c h1 a1 => Exited c h1 a1
  end.
Proof.
  revert h a. induction before as [|i before IH]; intros h a.
  - simpl. destruct (is_running h) eqn:Hr; simpl; [reflexivity|].
    now apply main_stopped.
  - simpl. destruct (is_running h); simpl; [|reflexivity].
    destruct i as [r|]; [|apply IH].
    destruct (js_get_event r) as [got event].
    destruct got; try reflexivity; [|apply IH].
    destruct (event_action event a) as [acted a'].
    destruct acted; try reflexivity; apply IH.
Qed.

(** A loop that is still running has its flag set. *)
Lemma main_running_flag inputs h a h1 a1 :
  js_event_handler_main event_action inputs h a = Running h1 a1 ->
  is_running h1 = true.
Proof.
  revert h a. induction inputs as [|i inputs IH]; intros h a; simpl.
  - destruct (is_running h) eqn:Hr; simpl; [|discriminate].
    intros [= <- _]. exact Hr.
  - destruct (is_running h); simpl; [|discriminate].
    destruct i as [r|]; [|apply IH].
    destruct (js_get_event r) as [got event].
    destruct got; try discriminate; [|apply IH].
    destruct (event_action event a) as [acted a'].
    destruct acted; try discriminate; apply IH.
Qed.

(** One iteration in which the callback fails. *)
Lemma main_step_callback_fails r inputs h a :
  is_running h = true ->
  fst (js_get_event r) = JsResult_success ->
  fst (event_action (snd (js_get_event r)) a) = JsResult_failure ->
  js_event_handler_main event_action (Input_read r :: inputs) h a =
  Exited EXIT_FAILURE (set_is_running false h)
         (snd (event_action (snd (js_get_event r)) a)).
Proof.
  intros Hr Hg Hf. simpl. rewrite Hr. simpl.
  destruct (js_get_event r) as [got event]. simpl in *. subst got.
  destruct (event_action event a) as [acted a']. simpl in *. now subst acted.
Qed.

(** C4: whenever the user callback returns [JsResult_failure], the
    background loop clears the running flag and exits with
    [EXIT_FAILURE]; afterwards [js_event_handler_is_running] reports
    false, and [js_destroy_event_handler], whose [thrd_join] collects that
    exit status, returns [JsResult_failure]. *)
Theorem js_event_handler_main_callback_failure
    before r after h a h1 a1 :
  js_event_handler_main event_action before h a = Running h1 a1 ->
  fst (js_get_event r) = JsResult_success ->
  fst (event_action (snd (js_get_event r)) a1) = JsResult_failure ->
  exists h',
    js_event_handler_main event_action (before ++ Input_read r :: after) h a
    = Exited EXIT_FAILURE h' (snd (event_action (snd (js_get_event r)) a1)) /\
    js_event_handler_is_running h' = false /\
    forall join_result,
      fst (js_destroy_event_handler join_result EXIT_FAILURE h')
      = JsResult_failure /\
      js_event_handler_is_running
        (snd (js_destroy_event_handler join_result EXIT_FAILURE h')) = false.
Proof.
  intros Hrun Hg Hf. exists (set_is_running false h1).
  split; [|split].
  - rewrite main_app, Hrun.
    apply main_step_callback_fails; try assumption.
    eapply main_running_flag; eassumption.
  - reflexivity.
  - intros join_result. split; [|reflexivity].
    unfold js_destroy_event_handler. simpl.
    now rewrite andb_false_r.
Qed.

End EventHandlerClaims.

Lemma js_event_handler_main_callback_failure_witness :
  exists h',
    js_event_handler_main fail_on_fifth
      (replicate 4 (Input_read (read_event (mkJsEvent 1 1 JS_EVENT_BUTTON 0)))
       ++ Input_read (read_event (mkJsEvent 2 0 JS_EVENT_BUTTON 0))
       :: [Input_read read_would_block])
      (mkJsEventHandler 3 1 true) 0%nat
    = Exited EXIT_FAILURE h'
        (snd (fail_on_fifth
                (snd (js_get_event
                        (read_event (mkJsEvent 2 0 JS_EVENT_BUTTON 0))))
                4%nat)) /\
    js_event_handler_is_running h' = false /\
    forall join_result,
      fst (js_destroy_event_handler join_result EXIT_FAILURE h')
      = JsResult_failure /\
      js_event_handler_is_running
        (snd (js_destroy_event_handler join_result EXIT_FAILURE h')) = false.
Proof.
  apply (js_event_handler_main_callback_failure fail_on_fifth
           (replicate 4
              (Input_read (read_event (mkJsEvent 1 1 JS_EVENT_BUTTON 0))))
           (read_event (mkJsEvent 2 0 JS_EVENT_BUTTON 0))
           [Input_read read_would_block]
           (mkJsEventHandler 3 1 true) 0%nat
           (mkJsEventHandler 3 1 true) 4%nat); by_evaluation.
Defined.

(** The two scenarios of a callback that ends the loop on its fifth
    invocation: a failure clears the flag and is reported by
    [js_destroy_event_handler]; a stop request leaves the flag alone and the
    exit is clean. *)
Example fifth_invocation_fails :
  js_event_handler_main fail_on_fifth
    (replicate 7 (Input_read (read_event (mkJsEvent 1 1 JS_EVENT_BUTTON 0))))
    (mkJsEventHandler 3 1 true) 0%nat
  = Exited EXIT_FAILURE (mkJsEventHandler 3 1 false) 5%nat /\
  fst (js_destroy_event_handler thrd_success EXIT_FAILURE
         (mkJsEventHandler 3 1 false)) = JsResult_failure.
Proof. split; reflexivity. Qed.

Example fifth_invocation_stops :
  js_event_handler_main stop_on_fifth
    (replicate 7 (Input_read (read_event (mkJsEvent 1 1 JS_EVENT_BUTTON 0))))
    (mkJsEventHandler 3 1 true) 0%nat
  = Exited EXIT_SUCCESS (mkJsEventHandler 3 1 true) 5%nat /\
  fst (js_destroy_event_handler thrd_success EXIT_SUCCESS
         (mkJsEventHandler 3 1 true)) = JsResult_success.
Proof. split; reflexivity. Qed.

(** A stop request from another thread ends the loop cleanly at its next
    test of the flag. *)
Example stop_request_exits_cleanly :
  js_event_handler_main fail_on_fifth
    [Input_read read_would_block; Input_stop_request;
     Input_read (read_event (mkJsEvent 1 1 JS_EVENT_BUTTON 0))]
    (mkJsEventHandler 3 1 true) 0%nat
  = Exited EXIT_SUCCESS (mkJsEventHandler 3 1 false) 0%nat.
Proof. reflexivity. Qed.

(** C3, as stated, fails: when [thrd_create] answers [thrd_error] the call
    returns [JsResult_failure] and starts no thread, but the running flag,
    set before the attempt, is still true afterwards. *)
Lemma js_create_event_handler_keeps_flag_when_failing :
  fst (fst (js_create_event_handler thrd_error 9 (mkJsEventHandler 3 0 false)))
  = JsResult_failure /\
  snd (js_create_event_handler thrd_error 9 (mkJsEventHandler 3 0 false))
  = None /\
  js_event_handler_is_running
    (snd (fst (js_create_event_handler thrd_error 9
                 (mkJsEventHandler 3 0 false)))) <> false.
Proof.
  split; [reflexivity|]. split; [reflexivity|].
  vm_compute. intros H. discriminate H.
Qed.

(** C3, amended: if task creation fails inside [js_create_event_handler],
    the call returns [JsResult_failure] and no background task exists; the
    running flag, set to true before the attempt, stays true (so
    [js_event_handler_is_running] subsequently reads true), and the other
    fields of the handler are as they were. *)
Theorem js_create_event_handler_failure created fresh h :
  created <> thrd_success ->
  fst (fst (js_create_event_handler created fresh h)) = JsResult_failure /\
  snd (js_create_event_handler created fresh h) = None /\
  js_event_handler_is_running
    (snd (fst (js_create_event_handler created fresh h))) = true /\
  js (snd (fst (js_create_event_handler created fresh h))) = js h /\
  thread_id (snd (fst (js_create_event_handler created fresh h)))
  = thread_id h.
Proof.
  intros Hc. unfold js_create_event_handler.
  destruct created; [contradiction| | | |]; simpl; repeat split.
Qed.

Lemma js_create_event_handler_failure_witness :
  fst (fst (js_create_event_handler thrd_nomem 9 (mkJsEventHandler 3 5 false)))
  = JsResult_failure /\
  snd (js_create_event_handler thrd_nomem 9 (mkJsEventHandler 3 5 false))
  = None /\
  js_event_handler_is_running
    (snd (fst (js_create_event_handler thrd_nomem 9
                 (mkJsEventHandler 3 5 false)))) = true /\
  js (snd (fst (js_create_event_handler thrd_nomem 9
                  (mkJsEventHandler 3 5 false)))) = 3 /\
  thread_id (snd (fst (js_create_event_handler thrd_nomem 9
                         (mkJsEventHandler 3 5 false)))) = 5.
Proof.
  apply (js_create_event_handler_failure thrd_nomem 9
           (mkJsEventHandler 3 5 false)).
  intros H. discriminate H.
Defined.

(** With [thrd_success] the handler is running and its thread exists. *)
Lemma js_create_event_handler_success fresh h :
  js_create_event_handler thrd_success fresh h
  = (JsResult_success,
     {| js := js h; thread_id := fresh; is_running := true |}, Some fresh).
Proof. reflexivity. Qed.

(** ** Claims about the asynchronously updated state *)

Section AsyncStateClaims.

Implicit Types (a : JsAsyncState) (s out : JsState) (device rest : Device).

(** C6: [js_query_async_state] locks, copies the whole [JsState] record
    into [out_state] and unlocks. It returns [JsResult_failure] exactly
    when [mtx_lock] or [mtx_unlock] fails and never any other code than
    success or failure; the record kept in the object is not changed; once
    the lock has been taken, [out_state] is the object's state; and when
    both lock operations succeed it returns [JsResult_success] with
    [out_state] equal to the current state and the mutex unlocked again. *)
Theorem js_query_async_state_copies locked unlocked a out :
  (fst (fst (js_query_async_state locked unlocked a out)) = JsResult_failure
   <-> locked <> thrd_success \/ unlocked <> thrd_success) /\
  (fst (fst (js_query_async_state locked unlocked a out)) = JsResult_success
   \/ fst (fst (js_query_async_state locked unlocked a out))
      = JsResult_failure) /\
  state (snd (fst (js_query_async_state locked unlocked a out))) = state a /\
  (locked = thrd_success ->
   snd (js_query_async_state locked unlocked a out) = state a) /\
  (locked <> thrd_success ->
   snd (js_query_async_state locked unlocked a out) = out) /\
  (locked = thrd_success -> unlocked = thrd_success ->
   js_query_async_state locked unlocked a out
   = (JsResult_success, set_lock mtx_unlocked a, state a)).
Proof.
  unfold js_query_async_state.
  destruct locked, unlocked; simpl;
    repeat split; intros; try discriminate; try congruence;
    try (left; discriminate); try (right; discriminate);
    try (left; reflexivity); try (right; reflexivity);
    try (match goal with H : _ \/ _ |- _ => destruct H end; congruence).
Qed.

Lemma js_query_async_state_copies_witness :
  snd (js_query_async_state thrd_success thrd_success
         (mkJsAsyncState mtx_unlocked (mkJsEventHandler 3 1 true)
            (mkJsState 42 5 [1; 2; 3; 4; 5; 6; 7; 8]))
         JsState_zero)
  = mkJsState 42 5 [1; 2; 3; 4; 5; 6; 7; 8] /\
  snd (js_query_async_state thrd_error thrd_success
         (mkJsAsyncState mtx_unlocked (mkJsEventHandler 3 1 true)
            (mkJsState 42 5 [1; 2; 3; 4; 5; 6; 7; 8]))
         JsState_zero)
  = JsState_zero /\
  js_query_async_state thrd_success thrd_success
    (mkJsAsyncState mtx_unlocked (mkJsEventHandler 3 1 true)
       (mkJsState 42 5 [1; 2; 3; 4; 5; 6; 7; 8]))
    JsState_zero
  = (JsResult_success,
     mkJsAsyncState mtx_unlocked (mkJsEventHandler 3 1 true)
       (mkJsState 42 5 [1; 2; 3; 4; 5; 6; 7; 8]),
     mkJsState 42 5 [1; 2; 3; 4; 5; 6; 7; 8]).
Proof.
  split; [|split].
  - apply (proj1 (proj2 (proj2 (proj2
             (js_query_async_state_copies thrd_success thrd_success
                (mkJsAsyncState mtx_unlocked (mkJsEventHandler 3 1 true)
                   (mkJsState 42 5 [1; 2; 3; 4; 5; 6; 7; 8]))
                JsState_zero))))).
    reflexivity.
  - apply (proj1 (proj2 (proj2 (proj2 (proj2
             (js_query_async_state_copies thrd_error thrd_success
                (mkJsAsyncState mtx_unlocked (mkJsEventHandler 3 1 true)
                   (mkJsState 42 5 [1; 2; 3; 4; 5; 6; 7; 8]))
                JsState_zero)))))).
    intros H. discriminate H.
  - apply (proj2 (proj2 (proj2 (proj2 (proj2
             (js_query_async_state_copies thrd_success thrd_success
                (mkJsAsyncState mtx_unlocked (mkJsEventHandler 3 1 true)
                   (mkJsState 42 5 [1; 2; 3; 4; 5; 6; 7; 8]))
                JsState_zero)))))); reflexivity.
Defined.

Lemma get_event_read_event e :
  js_get_event (read_event e) = (JsResult_success, e).
Proof. reflexivity. Qed.

Lemma get_event_would_block :
  fst (js_get_event read_would_block) = JsResult_nothing.
Proof. reflexivity. Qed.

(** [js_get_event] never answers [JsResult_stop]. *)
Lemma get_event_not_stop r : fst (js_get_event r) <> JsResult_stop.
Proof.
  unfold js_get_event.
  repeat match goal with |- context [if ?c then _ else _] => destruct c end;
    discriminate.
Qed.

(** Flagged events that fold well keep the loop going. *)
Lemma loop_through_flagged inits rest s s1 :
  forallb flagged_init inits = true ->
  fold_events s inits = (JsResult_success, s1) ->
  js_create_async_state_loop (map read_event inits ++ rest) s
  = js_create_async_state_loop rest s1.
Proof.
  revert s. induction inits as [|e inits IH]; intros s Hflag Hfold.
  - simpl in Hfold. injection Hfold as <-. reflexivity.
  - simpl in Hflag. apply andb_true_iff in Hflag as [He Hflag].
    simpl in Hfold. simpl.
    destruct (js_update_state s e) as [u s'].
    destruct u; try discriminate Hfold. simpl.
    unfold flagged_init in He. rewrite He.
    now apply IH.
Qed.

(** The rest of [js_create_async_state] once the loop has fallen
    through, and when the loop has returned. *)
Lemma create_after_loop device initialised created fresh js0 a s rest :
  js_create_async_state_loop device JsState_zero = (Drain_done, s, rest) ->
  drained_to (js_create_async_state device initialised created fresh js0 a)
    initialised created s rest.
Proof.
  intros Hloop.
  unfold drained_to, js_create_async_state. simpl. rewrite Hloop.
  destruct initialised, created; simpl;
    repeat split; try tauto; try discriminate;
    try (intros [? ?]; discriminate).
Qed.

Lemma create_loop_returned device initialised created fresh js0 a s rest :
  js_create_async_state_loop device JsState_zero
  = (Drain_return_failure, s, rest) ->
  created_result
    (js_create_async_state device initialised created fresh js0 a)
  = JsResult_failure.
Proof.
  intros Hloop. unfold js_create_async_state. simpl. now rewrite Hloop.
Qed.

End AsyncStateClaims.

(** C2, as stated, fails: offered one button event that does not carry
    the [JS_EVENT_INIT] flag, [js_create_async_state] succeeds with that
    event folded into the state, although the flagged events at the head
    of the sequence are none. *)
Lemma js_create_async_state_folds_unflagged_event :
  flagged_init (mkJsEvent 5 1 JS_EVENT_BUTTON 0) = false /\
  init_prefix [mkJsEvent 5 1 JS_EVENT_BUTTON 0] = [] /\
  created_result
    (js_create_async_state [read_event (mkJsEvent 5 1 JS_EVENT_BUTTON 0)]
       thrd_success thrd_success 1 3 blank) = JsResult_success /\
  state (created_object
           (js_create_async_state
              [read_event (mkJsEvent 5 1 JS_EVENT_BUTTON 0)]
              thrd_success thrd_success 1 3 blank))
  = mkJsState 5 1 [0; 0; 0; 0; 0; 0; 0; 0] /\
  state (created_object
           (js_create_async_state
              [read_event (mkJsEvent 5 1 JS_EVENT_BUTTON 0)]
              thrd_success thrd_success 1 3 blank))
  <> snd (fold_events JsState_zero
            (init_prefix [mkJsEvent 5 1 JS_EVENT_BUTTON 0])).
Proof.
  repeat (split; [reflexivity|]).
  vm_compute. intros H. discriminate H.
Qed.

Section DrainClaims.

Variables (initialised created : thrd_status) (fresh : thrd_t) (js0 : Z).
Variable a : JsAsyncState.

(** C2, amended: [js_create_async_state] zero-initializes the state and
    then synchronously drains the source. After a run of events that
    carry the initialization flag and fold successfully, it goes on as
    follows. If the next event does not carry the flag, that event is
    folded too and draining stops after it. If no event is available
    (the source has nothing left, or the read reports nothing), draining
    stops at once. In both cases the state is the fold, from the zero
    state, of exactly the events retrieved, and creation succeeds exactly
    when the lock and the task can be created. If folding the next event
    fails, or the source reports an error, creation returns
    [JsResult_failure]. *)
Theorem js_create_async_state_drain inits s1 :
  forallb flagged_init inits = true ->
  fold_events JsState_zero inits = (JsResult_success, s1) ->
  (forall e s2 rest,
     flagged_init e = false ->
     js_update_state s1 e = (JsResult_success, s2) ->
     drained_to
       (js_create_async_state (map read_event inits ++ read_event e :: rest)
          initialised created fresh js0 a)
       initialised created s2 rest) /\
  drained_to
    (js_create_async_state (map read_event inits)
       initialised created fresh js0 a)
    initialised created s1 [] /\
  (forall r rest,
     fst (js_get_event r) = JsResult_nothing ->
     drained_to
       (js_create_async_state (map read_event inits ++ r :: rest)
          initialised created fresh js0 a)
       initialised created s1 rest) /\
  (forall e rest,
     fst (js_update_state s1 e) <> JsResult_success ->
     created_result
       (js_create_async_state (map read_event inits ++ read_event e :: rest)
          initialised created fresh js0 a)
     = JsResult_failure) /\
  (forall r rest,
     fst (js_get_event r) <> JsResult_success ->
     fst (js_get_event r) <> JsResult_nothing ->
     created_result
       (js_create_async_state (map read_event inits ++ r :: rest)
          initialised created fresh js0 a)
     = JsResult_failure).
Proof.
  intros Hflag Hfold.
  split; [|split; [|split; [|split]]].
  - intros e s2 rest He Hupd.
    apply create_after_loop.
    rewrite (loop_through_flagged _ _ _ _ Hflag Hfold). simpl.
    rewrite Hupd. simpl. unfold flagged_init in He. now rewrite He.
  - apply create_after_loop.
    rewrite <- (app_nil_r (map read_event inits)).
    now rewrite (loop_through_flagged _ _ _ _ Hflag Hfold).
  - intros r rest Hnothing.
    apply create_after_loop.
    rewrite (loop_through_flagged _ _ _ _ Hflag Hfold). simpl.
    destruct (js_get_event r) as [got event]. simpl in Hnothing.
    now subst got.
  - intros e rest Hupd.
    destruct (js_update_state s1 e) as [u s2] eqn:Hu. simpl in Hupd.
    apply (create_loop_returned _ initialised created fresh js0 a s2 rest).
    rewrite (loop_through_flagged _ _ _ _ Hflag Hfold). simpl.
    rewrite Hu. now destruct u.
  - intros r rest Hns Hnn.
    apply (create_loop_returned _ initialised created fresh js0 a s1 rest).
    rewrite (loop_through_flagged _ _ _ _ Hflag Hfold). simpl.
    destruct (js_get_event r) as [got event]. simpl in Hns, Hnn.
    now destruct got.
Qed.

End DrainClaims.

Lemma js_create_async_state_drain_witness :
  (state (created_object
            (js_create_async_state
               (map read_event backlog
                ++ read_event (mkJsEvent 20 1 JS_EVENT_BUTTON 0)
                :: [read_event (mkJsEvent 21 0 JS_EVENT_BUTTON 0)])
               thrd_success thrd_success 1 3 blank))
   = mkJsState 20 1 [500; 0; 0; 0; 0; 0; 0; 0] /\
   created_device
     (js_create_async_state
        (map read_event backlog
         ++ read_event (mkJsEvent 20 1 JS_EVENT_BUTTON 0)
         :: [read_event (mkJsEvent 21 0 JS_EVENT_BUTTON 0)])
        thrd_success thrd_success 1 3 blank)
   = [read_event (mkJsEvent 21 0 JS_EVENT_BUTTON 0)]) /\
  state (created_object
           (js_create_async_state (map read_event backlog)
              thrd_success thrd_success 1 3 blank))
  = mkJsState 12 0 [500; 0; 0; 0; 0; 0; 0; 0] /\
  created_result
    (js_create_async_state
       (map read_event backlog
        ++ read_event (mkJsEvent 20 1 JS_EVENT_BUTTON 32) :: [])
       thrd_success thrd_success 1 3 blank)
  = JsResult_failure /\
  created_result
    (js_create_async_state
       (map read_event backlog ++ read_error 5 :: [])
       thrd_success thrd_success 1 3 blank)
  = JsResult_failure.
Proof.
  destruct (js_create_async_state_drain thrd_success thrd_success 1 3 blank
              backlog (mkJsState 12 0 [500; 0; 0; 0; 0; 0; 0; 0]))
    as (Hstop & Hempty & _ & Hfold & Herror); [reflexivity | reflexivity |].
  split; [|split; [|split]].
  - destruct (Hstop (mkJsEvent 20 1 JS_EVENT_BUTTON 0)
                (mkJsState 20 1 [500; 0; 0; 0; 0; 0; 0; 0])
                [read_event (mkJsEvent 21 0 JS_EVENT_BUTTON 0)])
      as (Hs & Hd & _); [reflexivity | reflexivity |].
    split; [exact Hs | exact Hd].
  - exact (proj1 Hempty).
  - apply (Hfold (mkJsEvent 20 1 JS_EVENT_BUTTON 32) []). by_evaluation.
  - apply (Herror (read_error 5) []); by_evaluation.
Defined.

(** The backlog scenario: three synthetic events and then nothing; creation
    completes with button 2 released and axis 0 at 500. *)
Example backlog_drained :
  js_create_async_state (map read_event backlog)
    thrd_success thrd_success 1 3 blank
  = (JsResult_success,
     {| lock := mtx_unlocked;
        event_handler := {| js := 3; thread_id := 1; is_running := true |};
        state := mkJsState 12 0 [500; 0; 0; 0; 0; 0; 0; 0] |},
     [], Some 1).
Proof. reflexivity. Qed.

(** When the handler cannot be started the lock is destroyed again. *)
Example handler_failure_destroys_lock :
  lock (created_object
          (js_create_async_state (map read_event backlog)
             thrd_success thrd_nomem 1 3 blank)) = mtx_indeterminate /\
  created_result
    (js_create_async_state (map read_event backlog)
       thrd_success thrd_nomem 1 3 blank) = JsResult_failure.
Proof. split; reflexivity. Qed.

(** * Further properties of the code *)

(** ** The state folder *)

Section UpdateStateMore.

Implicit Types (s : JsState) (e : JsEvent).

(** X1: [js_update_state] accepts an event exactly when it is a button event
    with index below 32, or an event without the button bit, with the axis
    bit and with index below 8; every other event gets [JsResult_failure],
    and no other result code is ever returned. *)
Theorem js_update_state_accepts_iff s e :
  (fst (js_update_state s e) = JsResult_success <->
   (has_button_bit e /\ ev_number e < js_max_number_of_buttons) \/
   (~ has_button_bit e /\ has_axis_bit e /\
    ev_number e < js_max_number_of_axes)) /\
  (fst (js_update_state s e) = JsResult_success \/
   fst (js_update_state s e) = JsResult_failure).
Proof.
  destruct (Z.eq_dec (Z.land (ev_type e) JS_EVENT_BUTTON) 0) as [Hb|Hb];
    [destruct (Z.eq_dec (Z.land (ev_type e) JS_EVENT_AXIS) 0) as [Ha|Ha]|].
  - rewrite update_unclassified_rejected
      by (unfold has_button_bit, has_axis_bit; tauto).
    simpl. split; [|now right]. split; [discriminate|].
    unfold has_button_bit, has_axis_bit. tauto.
  - assert (Hnb : ~ has_button_bit e) by (unfold has_button_bit; tauto).
    destruct (Z_lt_le_dec (ev_number e) js_max_number_of_axes) as [Hn|Hn].
    + rewrite (update_axis_accepted s e Hnb Ha Hn). simpl.
      split; [|now left]. split; [|reflexivity]. intros _. right. tauto.
    + rewrite (update_axis_rejected s e Hnb Ha Hn). simpl.
      split; [|now right]. split; [discriminate|].
      intros [[? _]|(_ & _ & ?)]; [contradiction | lia].
  - destruct (Z_lt_le_dec (ev_number e) js_max_number_of_buttons) as [Hn|Hn].
    + rewrite (update_button_accepted s e Hb Hn). simpl.
      split; [|now left]. split; [|reflexivity]. intros _. left. tauto.
    + rewrite (update_button_rejected s e Hb Hn). simpl.
      split; [|now right]. split; [discriminate|].
      intros [[_ ?]|[? _]]; [lia | contradiction].
Qed.

(** X2: whatever the reason an event is rejected for (button index, axis index
    or an unknown type), the buttons and the axes are as before and only
    the time field has moved, to the rejected event's timestamp. *)
Theorem js_update_state_rejected_frame s e :
  fst (js_update_state s e) <> JsResult_success ->
  fst (js_update_state s e) = JsResult_failure /\
  snd (js_update_state s e) = set_time (ev_time e) s.
Proof.
  unfold js_update_state.
  repeat match goal with |- context [if ?c then _ else _] => destruct c end;
    simpl; intros H; try contradiction; split; reflexivity.
Qed.

Lemma js_update_state_rejected_frame_witness :
  fst (js_update_state (mkJsState 5 6 [1; 2; 3; 4; 5; 6; 7; 8])
                       (mkJsEvent 9 100 JS_EVENT_AXIS 8))
  = JsResult_failure /\
  snd (js_update_state (mkJsState 5 6 [1; 2; 3; 4; 5; 6; 7; 8])
                       (mkJsEvent 9 100 JS_EVENT_AXIS 8))
  = set_time 9 (mkJsState 5 6 [1; 2; 3; 4; 5; 6; 7; 8]).
Proof.
  apply (js_update_state_rejected_frame
           (mkJsState 5 6 [1; 2; 3; 4; 5; 6; 7; 8])
           (mkJsEvent 9 100 JS_EVENT_AXIS 8)).
  by_evaluation.
Defined.

(** X3: an in-range axis event is accepted, its value is then what the slot
    holds, and the time field is the event's timestamp. *)
Theorem js_update_state_axis_in_range s e :
  length (axes s) = Z.to_nat js_max_number_of_axes ->
  ~ has_button_bit e -> has_axis_bit e ->
  0 <= ev_number e < js_max_number_of_axes ->
  fst (js_update_state s e) = JsResult_success /\
  axes (snd (js_update_state s e)) !! Z.to_nat (ev_number e)
  = Some (ev_value e) /\
  time (snd (js_update_state s e)) = ev_time e.
Proof.
  intros Hlen Hb Ha Hn.
  rewrite (update_axis_accepted s e Hb Ha) by apply Hn. simpl.
  split; [reflexivity|]. split; [|reflexivity].
  apply list_lookup_insert_eq. rewrite Hlen.
  unfold js_max_number_of_axes in *. lia.
Qed.

Lemma js_update_state_axis_in_range_witness :
  fst (js_update_state JsState_zero (mkJsEvent 3 (-32768) JS_EVENT_AXIS 0))
  = JsResult_success /\
  axes (snd (js_update_state JsState_zero
               (mkJsEvent 3 (-32768) JS_EVENT_AXIS 0))) !! Z.to_nat 0
  = Some (-32768) /\
  time (snd (js_update_state JsState_zero
               (mkJsEvent 3 (-32768) JS_EVENT_AXIS 0))) = 3.
Proof.
  apply (js_update_state_axis_in_range JsState_zero
           (mkJsEvent 3 (-32768) JS_EVENT_AXIS 0)); by_evaluation.
Defined.

Lemma fold_events_keeps_types s events :
  JsState_wf s -> Forall JsEvent_wf events ->
  JsState_wf (snd (fold_events s events)).
Proof.
  intros Hs Hev. revert s Hs.
  induction Hev as [|e events He _ IH]; intros s Hs; [exact Hs|].
  simpl. pose proof (update_wf s e Hs He) as Hs'.
  destruct (js_update_state s e) as [r s']. simpl in Hs'.
  destruct r; try exact Hs'. now apply IH.
Qed.

(** X4: folding any sequence of events whose fields are within their C types,
    starting from the zero state, gives a state within its C types: the
    time and the buttons are 32-bit values, the axes are still 8 in number
    and each is a 16-bit value. This holds whether or not an event of the
    sequence is rejected. *)
Theorem fold_events_from_zero_keeps_types events :
  Forall JsEvent_wf events ->
  JsState_wf (snd (fold_events JsState_zero events)).
Proof. apply fold_events_keeps_types, JsState_zero_wf. Qed.

Lemma fold_events_from_zero_keeps_types_witness :
  JsState_wf (snd (fold_events JsState_zero backlog)).
Proof.
  apply (fold_events_from_zero_keeps_types backlog).
  repeat constructor; by_evaluation.
Defined.

End UpdateStateMore.

Section ButtonBits.

Implicit Types (s : JsState) (e : JsEvent).

(** Bit [k] of the buttons after an accepted button event. *)
Lemma accepted_button_testbit s e k :
  has_button_bit e -> 0 <= ev_number e < js_max_number_of_buttons ->
  0 <= k ->
  Z.testbit (buttons (snd (js_update_state s e))) k =
  if CInt.truthy (ev_value e)
  then Z.testbit (buttons s) k || (k =? ev_number e)
  else Z.testbit (buttons s) k && ((k <? 32) && negb (k =? ev_number e)).
Proof.
  intros Hb Hn Hk. unfold js_max_number_of_buttons in Hn.
  rewrite (update_button_accepted s e Hb) by apply Hn. simpl.
  destruct (CInt.truthy (ev_value e)).
  - rewrite Z.lor_spec, set_mask, Z.pow2_bits_eqb by lia.
    now rewrite (Z.eqb_sym k).
  - now rewrite Z.land_spec, clear_mask_testbit by lia.
Qed.

(** What [main] prints for button [i] is bit [i] of the bitset. *)
Lemma displayed_button_testbit s i :
  0 <= i < js_max_number_of_buttons ->
  displayed_button s i = if Z.testbit (buttons s) i then 1 else 0.
Proof.
  intros Hi. unfold displayed_button, js_max_number_of_buttons in *.
  now rewrite set_mask, truthy_land_pow2 by lia.
Qed.

(** X5: of two button events for the same in-range index folded one after the
    other, the second decides the bit: it is set when the second value is
    nonzero and clear when it is zero, whatever the first event and the
    earlier state were. *)
Theorem js_update_state_button_last_wins s e1 e2 :
  has_button_bit e1 -> has_button_bit e2 ->
  ev_number e1 = ev_number e2 ->
  0 <= ev_number e2 < js_max_number_of_buttons ->
  fst (js_update_state (snd (js_update_state s e1)) e2) = JsResult_success /\
  Z.testbit (buttons (snd (js_update_state (snd (js_update_state s e1)) e2)))
            (ev_number e2)
  = CInt.truthy (ev_value e2).
Proof.
  intros Hb1 Hb2 Heq Hn. split.
  - rewrite (update_button_accepted _ e2 Hb2); [reflexivity | apply Hn].
  - rewrite accepted_button_testbit by (try assumption; lia).
    rewrite Z.eqb_refl. destruct (CInt.truthy (ev_value e2)).
    + apply orb_true_r.
    + simpl. now rewrite !andb_false_r.
Qed.

Lemma js_update_state_button_last_wins_witness :
  fst (js_update_state
         (snd (js_update_state JsState_zero (mkJsEvent 1 1 JS_EVENT_BUTTON 31)))
         (mkJsEvent 2 0 JS_EVENT_BUTTON 31)) = JsResult_success /\
  Z.testbit
    (buttons
       (snd (js_update_state
               (snd (js_update_state JsState_zero
                       (mkJsEvent 1 1 JS_EVENT_BUTTON 31)))
               (mkJsEvent 2 0 JS_EVENT_BUTTON 31)))) 31
  = CInt.truthy 0.
Proof.
  apply (js_update_state_button_last_wins JsState_zero
           (mkJsEvent 1 1 JS_EVENT_BUTTON 31)
           (mkJsEvent 2 0 JS_EVENT_BUTTON 31)); by_evaluation.
Defined.

(** X7: the row of buttons [main] prints follows the events: after an accepted
    button event for index [n], position [n] shows 1 for a nonzero value
    and 0 for a zero value, and every other position shows what it showed
    before. The row always has 32 entries. *)
Theorem displayed_button_after_event s e :
  has_button_bit e -> 0 <= ev_number e < js_max_number_of_buttons ->
  displayed_button (snd (js_update_state s e)) (ev_number e)
  = (if ev_value e =? 0 then 0 else 1) /\
  (forall i, 0 <= i < js_max_number_of_buttons -> i <> ev_number e ->
     displayed_button (snd (js_update_state s e)) i = displayed_button s i) /\
  length (displayed_buttons (snd (js_update_state s e))) = 32%nat.
Proof.
  intros Hb Hn. split; [|split].
  - rewrite displayed_button_testbit, accepted_button_testbit
      by (try assumption; lia).
    rewrite Z.eqb_refl. unfold CInt.truthy.
    destruct (ev_value e =? 0); simpl.
    + now rewrite !andb_false_r.
    + now rewrite orb_true_r.
  - intros i Hi Hne.
    rewrite !displayed_button_testbit, accepted_button_testbit
      by (try assumption; lia).
    unfold js_max_number_of_buttons in Hi.
    destruct (Z.eqb_spec i (ev_number e)) as [|_]; [contradiction|].
    destruct (Z.ltb_spec i 32); [|lia].
    destruct (CInt.truthy (ev_value e));
      now rewrite ?orb_false_r, ?andb_true_r.
  - unfold displayed_buttons. now rewrite length_map, length_seqZ.
Qed.

Lemma displayed_button_after_event_witness :
  displayed_button
    (snd (js_update_state JsState_zero (mkJsEvent 1 1 JS_EVENT_BUTTON 5))) 5
  = 1 /\
  displayed_button
    (snd (js_update_state JsState_zero (mkJsEvent 1 1 JS_EVENT_BUTTON 5))) 6
  = displayed_button JsState_zero 6.
Proof.
  destruct (displayed_button_after_event JsState_zero
              (mkJsEvent 1 1 JS_EVENT_BUTTON 5))
    as (Hn & Hother & _); [by_evaluation | by_evaluation |].
  split; [exact Hn|]. apply (Hother 6); by_evaluation.
Defined.

Lemma F710Button_value_pow2 b : F710Button_value b = 2 ^ F710Button_shift b.
Proof. now destruct b. Qed.

Lemma F710Button_shift_range b : 0 <= F710Button_shift b < 32.
Proof. destruct b; simpl; lia. Qed.

Lemma F710Button_shift_inj b b' :
  F710Button_shift b = F710Button_shift b' -> b = b'.
Proof. destruct b, b'; simpl; intros H; try reflexivity; discriminate H. Qed.

(** X8: the [F710Button] masks read back what the button events wrote: after a
    button event whose number is the shift count of [b], the test
    [buttons & b] is nonzero exactly when the event's value is nonzero, and
    the test for every other enumerator gives what it gave before. *)
Theorem F710Button_mask_after_event s e b :
  has_button_bit e -> ev_number e = F710Button_shift b ->
  fst (js_update_state s e) = JsResult_success /\
  (Z.land (buttons (snd (js_update_state s e))) (F710Button_value b) <> 0
   <-> ev_value e <> 0) /\
  (forall b', b' <> b ->
     Z.land (buttons (snd (js_update_state s e))) (F710Button_value b')
     = Z.land (buttons s) (F710Button_value b')).
Proof.
  intros Hb Hn.
  pose proof (F710Button_shift_range b) as Hr.
  assert (Hin : 0 <= ev_number e < js_max_number_of_buttons)
    by (unfold js_max_number_of_buttons; lia).
  split; [|split].
  - rewrite (update_button_accepted s e Hb); [reflexivity | apply Hin].
  - rewrite F710Button_value_pow2, <- truthy_true, truthy_land_pow2 by lia.
    rewrite <- Hn, accepted_button_testbit by (try assumption; lia).
    rewrite Z.eqb_refl, <- (truthy_true (ev_value e)).
    destruct (CInt.truthy (ev_value e)).
    + now rewrite orb_true_r.
    + simpl. now rewrite !andb_false_r.
  - intros b' Hne.
    pose proof (F710Button_shift_range b') as Hr'.
    rewrite F710Button_value_pow2, !land_pow2 by lia.
    rewrite accepted_button_testbit by (try assumption; lia).
    destruct (Z.eqb_spec (F710Button_shift b') (ev_number e)) as [Heq|_].
    { exfalso. apply Hne, F710Button_shift_inj. congruence. }
    destruct (Z.ltb_spec (F710Button_shift b') 32); [|lia].
    destruct (CInt.truthy (ev_value e));
      now rewrite ?orb_false_r, ?andb_true_r.
Qed.

Lemma F710Button_mask_after_event_witness :
  fst (js_update_state JsState_zero
         (mkJsEvent 1 1 JS_EVENT_BUTTON (F710Button_shift F710Button_logo)))
  = JsResult_success /\
  (Z.land
     (buttons
        (snd (js_update_state JsState_zero
                (mkJsEvent 1 1 JS_EVENT_BUTTON
                   (F710Button_shift F710Button_logo)))))
     (F710Button_value F710Button_logo) <> 0
   <-> ev_value (mkJsEvent 1 1 JS_EVENT_BUTTON
                   (F710Button_shift F710Button_logo)) <> 0).
Proof.
  destruct (F710Button_mask_after_event JsState_zero
              (mkJsEvent 1 1 JS_EVENT_BUTTON (F710Button_shift F710Button_logo))
              F710Button_logo) as (Hr & Hb & _); [by_evaluation | reflexivity |].
  split; [exact Hr | exact Hb].
Defined.

Lemma F710Axis_value_range x : 0 <= F710Axis_value x < js_max_number_of_axes.
Proof. destruct x; unfold js_max_number_of_axes; simpl; lia. Qed.

Lemma F710Axis_value_inj x x' :
  F710Axis_value x = F710Axis_value x' -> x = x'.
Proof. destruct x, x'; simpl; intros H; try reflexivity; discriminate H. Qed.

(** X9: every [F710Axis] enumerator addresses a slot of its own within the
    axes array: an axis event numbered by the enumerator [x] is accepted,
    slot [x] then holds the event's value, and the slot of every other
    enumerator holds what it held before. *)
Theorem F710Axis_slot_after_event s e x :
  length (axes s) = Z.to_nat js_max_number_of_axes ->
  ~ has_button_bit e -> has_axis_bit e ->
  ev_number e = F710Axis_value x ->
  fst (js_update_state s e) = JsResult_success /\
  axes (snd (js_update_state s e)) !! Z.to_nat (F710Axis_value x)
  = Some (ev_value e) /\
  (forall x', x' <> x ->
     axes (snd (js_update_state s e)) !! Z.to_nat (F710Axis_value x')
     = axes s !! Z.to_nat (F710Axis_value x')).
Proof.
  intros Hlen Hb Ha Hn.
  pose proof (F710Axis_value_range x) as Hr.
  rewrite (update_axis_accepted s e Hb Ha) by lia. simpl.
  split; [reflexivity|]. split.
  - rewrite Hn. apply list_lookup_insert_eq. rewrite Hlen.
    unfold js_max_number_of_axes in *. lia.
  - intros x' Hne. apply list_lookup_insert_ne.
    pose proof (F710Axis_value_range x') as Hr'.
    intros Heq. apply Hne, F710Axis_value_inj. lia.
Qed.

Lemma F710Axis_slot_after_event_witness :
  fst (js_update_state JsState_zero
         (mkJsEvent 1 (-7) JS_EVENT_AXIS (F710Axis_value F710Axis_arrow_y)))
  = JsResult_success /\
  axes (snd (js_update_state JsState_zero
               (mkJsEvent 1 (-7) JS_EVENT_AXIS
                  (F710Axis_value F710Axis_arrow_y))))
    !! Z.to_nat (F710Axis_value F710Axis_arrow_y)
  = Some (-7).
Proof.
  destruct (F710Axis_slot_after_event JsState_zero
              (mkJsEvent 1 (-7) JS_EVENT_AXIS (F710Axis_value F710Axis_arrow_y))
              F710Axis_arrow_y) as (Hr & Hs & _);
    [by_evaluation | by_evaluation | by_evaluation | by_evaluation |].
  split; [exact Hr | exact Hs].
Defined.

End ButtonBits.

Section Commute.

Implicit Types (s : JsState) (e : JsEvent).

Lemma accepted_inv s e :
  fst (js_update_state s e) = JsResult_success ->
  (has_button_bit e /\ ev_number e < js_max_number_of_buttons) \/
  (~ has_button_bit e /\ has_axis_bit e /\
   ev_number e < js_max_number_of_axes).
Proof.
  unfold js_update_state, has_button_bit, has_axis_bit.
  rewrite <- !truthy_true.
  destruct (CInt.truthy (Z.land (ev_type e) JS_EVENT_BUTTON)).
  - destruct (Z.geb_spec (ev_number e) js_max_number_of_buttons);
      [discriminate|]. intros _. left. split; [reflexivity | assumption].
  - destruct (CInt.truthy (Z.land (ev_type e) JS_EVENT_AXIS));
      [|discriminate].
    destruct (Z.geb_spec (ev_number e) js_max_number_of_axes);
      [discriminate|]. intros _. right.
    split; [discriminate|]. split; [reflexivity | assumption].
Qed.

Lemma buttons_commute s e1 e2 :
  has_button_bit e1 -> has_button_bit e2 ->
  0 <= ev_number e1 < js_max_number_of_buttons ->
  0 <= ev_number e2 < js_max_number_of_buttons ->
  ev_number e1 <> ev_number e2 ->
  buttons (snd (js_update_state (snd (js_update_state s e1)) e2))
  = buttons (snd (js_update_state (snd (js_update_state s e2)) e1)).
Proof.
  intros Hb1 Hb2 Hn1 Hn2 Hne. apply Z.bits_inj'. intros k Hk.
  rewrite !accepted_button_testbit by assumption.
  destruct (Z.eqb_spec k (ev_number e1)) as [H1|H1];
    destruct (Z.eqb_spec k (ev_number e2)) as [H2|H2]; [lia | | |];
    destruct (CInt.truthy (ev_value e1)), (CInt.truthy (ev_value e2));
    destruct (Z.testbit (buttons s) k); destruct (k <? 32) eqn:Hlt;
    try reflexivity;
    apply Z.ltb_ge in Hlt; unfold js_max_number_of_buttons in *; lia.
Qed.

(** X6: two accepted events that address different slots (a button and an
    axis, two buttons with different indices, or two axes with different
    indices) can be folded in either order: the buttons and the axes come
    out the same. Only the time field tells the two orders apart. *)
Theorem js_update_state_commute s e1 e2 :
  fst (js_update_state s e1) = JsResult_success ->
  fst (js_update_state s e2) = JsResult_success ->
  0 <= ev_number e1 -> 0 <= ev_number e2 ->
  ((has_button_bit e1 <-> has_button_bit e2) ->
   ev_number e1 <> ev_number e2) ->
  buttons (snd (js_update_state (snd (js_update_state s e1)) e2))
  = buttons (snd (js_update_state (snd (js_update_state s e2)) e1)) /\
  axes (snd (js_update_state (snd (js_update_state s e1)) e2))
  = axes (snd (js_update_state (snd (js_update_state s e2)) e1)).
Proof.
  intros Ha1 Ha2 Hp1 Hp2 Hslot.
  destruct (accepted_inv s e1 Ha1) as [[Hb1 Hn1]|(Hb1 & Hx1 & Hn1)];
    destruct (accepted_inv s e2 Ha2) as [[Hb2 Hn2]|(Hb2 & Hx2 & Hn2)].
  - split.
    + apply buttons_commute; try assumption; try lia. apply Hslot. tauto.
    + rewrite (update_button_accepted s e1 Hb1 Hn1),
        (update_button_accepted s e2 Hb2 Hn2). simpl.
      now rewrite (update_button_accepted _ e1 Hb1 Hn1),
        (update_button_accepted _ e2 Hb2 Hn2).
  - rewrite (update_button_accepted s e1 Hb1 Hn1),
      (update_axis_accepted s e2 Hb2 Hx2 Hn2). simpl.
    rewrite (update_button_accepted _ e1 Hb1 Hn1),
      (update_axis_accepted _ e2 Hb2 Hx2 Hn2). simpl.
    split; reflexivity.
  - rewrite (update_button_accepted s e2 Hb2 Hn2),
      (update_axis_accepted s e1 Hb1 Hx1 Hn1). simpl.
    rewrite (update_button_accepted _ e2 Hb2 Hn2),
      (update_axis_accepted _ e1 Hb1 Hx1 Hn1). simpl.
    split; reflexivity.
  - rewrite (update_axis_accepted s e1 Hb1 Hx1 Hn1),
      (update_axis_accepted s e2 Hb2 Hx2 Hn2). simpl.
    rewrite (update_axis_accepted _ e1 Hb1 Hx1 Hn1),
      (update_axis_accepted _ e2 Hb2 Hx2 Hn2). simpl.
    split; [reflexivity|].
    apply list_insert_insert_ne.
    assert (ev_number e1 <> ev_number e2) by (apply Hslot; tauto). lia.
Qed.

Lemma js_update_state_commute_witness :
  buttons
    (snd (js_update_state
            (snd (js_update_state (mkJsState 0 6 [1; 2; 3; 4; 5; 6; 7; 8])
                    (mkJsEvent 1 0 JS_EVENT_BUTTON 1)))
            (mkJsEvent 2 1 JS_EVENT_BUTTON 31)))
  = buttons
      (snd (js_update_state
              (snd (js_update_state (mkJsState 0 6 [1; 2; 3; 4; 5; 6; 7; 8])
                      (mkJsEvent 2 1 JS_EVENT_BUTTON 31)))
              (mkJsEvent 1 0 JS_EVENT_BUTTON 1))) /\
  axes
    (snd (js_update_state
            (snd (js_update_state (mkJsState 0 6 [1; 2; 3; 4; 5; 6; 7; 8])
                    (mkJsEvent 1 0 JS_EVENT_BUTTON 1)))
            (mkJsEvent 2 1 JS_EVENT_BUTTON 31)))
  = axes
      (snd (js_update_state
              (snd (js_update_state (mkJsState 0 6 [1; 2; 3; 4; 5; 6; 7; 8])
                      (mkJsEvent 2 1 JS_EVENT_BUTTON 31)))
              (mkJsEvent 1 0 JS_EVENT_BUTTON 1))).
Proof.
  apply (js_update_state_commute (mkJsState 0 6 [1; 2; 3; 4; 5; 6; 7; 8])
           (mkJsEvent 1 0 JS_EVENT_BUTTON 1)
           (mkJsEvent 2 1 JS_EVENT_BUTTON 31));
    [by_evaluation | by_evaluation | by_evaluation | by_evaluation |].
  intros _. simpl. lia.
Defined.

End Commute.

(** ** Reading events and properties *)

Section Reading.

(** X10: [js_get_event] sorts the outcome of the read as follows: success
    exactly for a read of the full record size; nothing exactly for a read
    of 0 bytes or one that returned -1 with [errno] [EAGAIN] or
    [EWOULDBLOCK]; failure for everything else, which includes short reads,
    oversized reads and every other [errno]. It never answers
    [JsResult_stop]. *)
Theorem js_get_event_classification r :
  (fst (js_get_event r) = JsResult_success <-> rd_s r = sizeof_JsEvent) /\
  (fst (js_get_event r) = JsResult_nothing <->
   rd_s r = 0 \/
   (rd_s r = -1 /\ (rd_errno r = EAGAIN \/ rd_errno r = EWOULDBLOCK))) /\
  (fst (js_get_event r) = JsResult_failure <->
   rd_s r <> sizeof_JsEvent /\ rd_s r <> 0 /\
   ~ (rd_s r = -1 /\ (rd_errno r = EAGAIN \/ rd_errno r = EWOULDBLOCK))) /\
  fst (js_get_event r) <> JsResult_stop.
Proof.
  unfold js_get_event, sizeof_JsEvent, EAGAIN, EWOULDBLOCK.
  destruct (Z.eqb_spec (rd_s r) 8) as [H8|H8]; simpl.
  { repeat split; intros; try discriminate; try lia; try tauto. }
  destruct (Z.gtb_spec (rd_s r) 0) as [Hpos|Hpos]; simpl.
  { repeat split; intros; try discriminate; try lia. }
  destruct (Z.eqb_spec (rd_s r) 0) as [H0|H0]; simpl.
  { repeat split; intros; try discriminate; try lia; try tauto. }
  destruct (Z.eqb_spec (rd_s r) (-1)) as [Hm|Hm]; simpl.
  - destruct (Z.eqb_spec (rd_errno r) 11) as [He|He]; simpl.
    + repeat split; intros; try discriminate; try lia; try tauto.
    + repeat split; intros; try discriminate; try lia; try tauto.
  - repeat split; intros; try discriminate; try lia; try tauto.
Qed.

Lemma to_char_range z : - 2 ^ 7 <= to_char z < 2 ^ 7.
Proof.
  unfold to_char.
  pose proof (Z.mod_pos_bound (z + 2 ^ 7) (2 ^ 8) ltac:(lia)). lia.
Qed.

Lemma to_char_small z : 0 <= z < 2 ^ 7 -> to_char z = z.
Proof.
  intros Hz. unfold to_char. rewrite Z.mod_small; lia.
Qed.

Lemma to_int_range z : - 2 ^ 31 <= CInt.to_int z < 2 ^ 31.
Proof.
  unfold CInt.to_int.
  pose proof (Z.mod_pos_bound (z + 2 ^ 31) (2 ^ 32) ltac:(lia)). lia.
Qed.

Lemma store_name_length data old :
  length old = sizeof_name -> length (store_name data old) = sizeof_name.
Proof.
  intros Hold. unfold store_name. cbv zeta.
  rewrite length_app, length_drop, length_map, length_take, Hold. lia.
Qed.

(** X11: [js_get_properties] succeeds exactly when all four [ioctl] calls
    return a non-negative value, and then every field holds what its call
    stored, read at the field's C type: the version as [int], the two
    counts as [char] (so a count below 128 reads back as it is, and every
    count read lies between -128 and 127), and the name array with the
    delivered bytes at its front and its length unchanged. The calls are
    made in the order name, version, buttons, axes, and none is made after
    one that failed, so the fields behind a failed call keep their
    values. *)
Theorem js_get_properties_short_circuit k p :
  (fst (fst (js_get_properties k p)) = JsResult_success <->
   0 <= name_return k /\ 0 <= version_return k /\
   0 <= buttons_return k /\ 0 <= axes_return k) /\
  (fst (fst (js_get_properties k p)) = JsResult_success ->
   snd (fst (js_get_properties k p))
   = {| driver_version := CInt.to_int (version_data k);
        name := store_name (name_data k) (name p);
        number_of_buttons := to_char (buttons_data k);
        number_of_axes := to_char (axes_data k) |}) /\
  (name_return k < 0 ->
   snd (js_get_properties k p) = [JSIOCGNAME] /\
   driver_version (snd (fst (js_get_properties k p))) = driver_version p /\
   number_of_buttons (snd (fst (js_get_properties k p)))
   = number_of_buttons p /\
   number_of_axes (snd (fst (js_get_properties k p))) = number_of_axes p) /\
  (0 <= name_return k -> version_return k < 0 ->
   snd (js_get_properties k p) = [JSIOCGNAME; JSIOCGVERSION] /\
   number_of_buttons (snd (fst (js_get_properties k p)))
   = number_of_buttons p /\
   number_of_axes (snd (fst (js_get_properties k p))) = number_of_axes p) /\
  (0 <= name_return k -> 0 <= version_return k -> buttons_return k < 0 ->
   snd (js_get_properties k p)
   = [JSIOCGNAME; JSIOCGVERSION; JSIOCGBUTTONS] /\
   number_of_axes (snd (fst (js_get_properties k p))) = number_of_axes p) /\
  (0 <= name_return k -> 0 <= version_return k -> 0 <= buttons_return k ->
   snd (js_get_properties k p)
   = [JSIOCGNAME; JSIOCGVERSION; JSIOCGBUTTONS; JSIOCGAXES]) /\
  (fst (fst (js_get_properties k p)) = JsResult_success ->
   - 2 ^ 31 <= driver_version (snd (fst (js_get_properties k p))) < 2 ^ 31 /\
   - 2 ^ 7 <= number_of_buttons (snd (fst (js_get_properties k p))) < 2 ^ 7 /\
   - 2 ^ 7 <= number_of_axes (snd (fst (js_get_properties k p))) < 2 ^ 7 /\
   (0 <= buttons_data k < 2 ^ 7 ->
    number_of_buttons (snd (fst (js_get_properties k p))) = buttons_data k) /\
   (0 <= axes_data k < 2 ^ 7 ->
    number_of_axes (snd (fst (js_get_properties k p))) = axes_data k) /\
   (length (name p) = sizeof_name ->
    length (name (snd (fst (js_get_properties k p)))) = sizeof_name)).
Proof.
  pose proof (to_char_range (buttons_data k)) as Hb.
  pose proof (to_char_range (axes_data k)) as Ha.
  pose proof (to_int_range (version_data k)) as Hv.
  pose proof (to_char_small (buttons_data k)) as Hbs.
  pose proof (to_char_small (axes_data k)) as Has.
  pose proof (store_name_length (name_data k) (name p)) as Hn.
  unfold js_get_properties.
  destruct (Z.geb_spec (name_return k) 0);
    [destruct (Z.geb_spec (version_return k) 0);
     [destruct (Z.geb_spec (buttons_return k) 0);
      [destruct (Z.geb_spec (axes_return k) 0)|]|]|];
    simpl; repeat split; intros; try discriminate; try lia;
    try reflexivity; try tauto; auto.
Qed.

Lemma js_get_properties_short_circuit_witness :
  (snd (js_get_properties
          (mkIoctlAnswers 12 [76; 111; 103; 0] (-1) 0 11 11 8 8)
          (mkJsProperties 1 [] 2 3))
   = [JSIOCGNAME; JSIOCGVERSION] /\
   number_of_buttons
     (snd (fst (js_get_properties
                  (mkIoctlAnswers 12 [76; 111; 103; 0] (-1) 0 11 11 8 8)
                  (mkJsProperties 1 [] 2 3)))) = 2 /\
   number_of_axes
     (snd (fst (js_get_properties
                  (mkIoctlAnswers 12 [76; 111; 103; 0] (-1) 0 11 11 8 8)
                  (mkJsProperties 1 [] 2 3)))) = 3) /\
  snd (fst (js_get_properties
              (mkIoctlAnswers 4 [76; 111; 103; 0] 0 0x020100 0 200 0 8)
              (mkJsProperties 1 (replicate sizeof_name 0) 2 3)))
  = {| driver_version := CInt.to_int 0x020100;
       name := store_name [76; 111; 103; 0] (replicate sizeof_name 0);
       number_of_buttons := to_char 200;
       number_of_axes := to_char 8 |} /\
  number_of_axes
    (snd (fst (js_get_properties
                 (mkIoctlAnswers 4 [76; 111; 103; 0] 0 0x020100 0 200 0 8)
                 (mkJsProperties 1 (replicate sizeof_name 0) 2 3)))) = 8.
Proof.
  split; [|split].
  - apply (proj1 (proj2 (proj2 (proj2
             (js_get_properties_short_circuit
                (mkIoctlAnswers 12 [76; 111; 103; 0] (-1) 0 11 11 8 8)
                (mkJsProperties 1 [] 2 3)))))); by_evaluation.
  - apply (proj1 (proj2
             (js_get_properties_short_circuit
                (mkIoctlAnswers 4 [76; 111; 103; 0] 0 0x020100 0 200 0 8)
                (mkJsProperties 1 (replicate sizeof_name 0) 2 3)))).
    reflexivity.
  - destruct (proj2 (proj2 (proj2 (proj2 (proj2 (proj2
                (js_get_properties_short_circuit
                   (mkIoctlAnswers 4 [76; 111; 103; 0] 0 0x020100 0 200 0 8)
                   (mkJsProperties 1 (replicate sizeof_name 0) 2 3))))))))
      as (_ & _ & _ & _ & Haxes & _); [reflexivity|].
    apply Haxes. by_evaluation.
Defined.

(** A count of 200 delivered by the driver is read as -56 through the
    [char] field, and the name keeps its 128 bytes. *)
Example js_get_properties_count_200 :
  js_get_properties
    (mkIoctlAnswers 4 [76; 111; 103; 0] 0 0x020100 0 200 0 8)
    (mkJsProperties 1 (replicate sizeof_name 0) 2 3)
  = (JsResult_success,
     {| driver_version := 0x020100;
        name := [76; 111; 103; 0] ++ replicate 124 0;
        number_of_buttons := -56;
        number_of_axes := 8 |},
     [JSIOCGNAME; JSIOCGVERSION; JSIOCGBUTTONS; JSIOCGAXES]).
Proof. reflexivity. Qed.

End Reading.

(** ** The background loop *)

Section EventHandlerMore.

Context {A : Type}.
Variable event_action : JsEvent -> A -> JsResult * A.

Implicit Types (h : JsEventHandler) (a : A) (inputs : list LoopInput).

(** X12: when the callback answers [JsResult_stop] the loop returns
    [EXIT_SUCCESS] and does not touch the running flag: it still reads true
    until [js_destroy_event_handler] clears it, which then reports a clean
    exit if the join succeeds. *)
Theorem js_event_handler_main_callback_stop before r after h a h1 a1 :
  js_event_handler_main event_action before h a = Running h1 a1 ->
  fst (js_get_event r) = JsResult_success ->
  fst (event_action (snd (js_get_event r)) a1) = JsResult_stop ->
  js_event_handler_main event_action (before ++ Input_read r :: after) h a
  = Exited EXIT_SUCCESS h1 (snd (event_action (snd (js_get_event r)) a1)) /\
  js_event_handler_is_running h1 = true /\
  fst (js_destroy_event_handler thrd_success EXIT_SUCCESS h1)
  = JsResult_success /\
  js_event_handler_is_running
    (snd (js_destroy_event_handler thrd_success EXIT_SUCCESS h1)) = false.
Proof.
  intros Hrun Hg Hs.
  pose proof (main_running_flag event_action _ _ _ _ _ Hrun) as Hflag.
  split; [|split; [exact Hflag | split; reflexivity]].
  rewrite main_app, Hrun. simpl. rewrite Hflag. simpl.
  destruct (js_get_event r) as [got event]. simpl in *. subst got.
  destruct (event_action event a1) as [acted a']. simpl in *. now subst acted.
Qed.

(** X13: when the read fails, the loop clears the running flag and returns
    [EXIT_FAILURE] without calling the callback for that read, and
    [js_destroy_event_handler] then reports failure. *)
Theorem js_event_handler_main_source_error before r after h a h1 a1 :
  js_event_handler_main event_action before h a = Running h1 a1 ->
  fst (js_get_event r) <> JsResult_success ->
  fst (js_get_event r) <> JsResult_nothing ->
  js_event_handler_main event_action (before ++ Input_read r :: after) h a
  = Exited EXIT_FAILURE (set_is_running false h1) a1 /\
  forall join_result,
    fst (js_destroy_event_handler join_result EXIT_FAILURE
           (set_is_running false h1)) = JsResult_failure.
Proof.
  intros Hrun Hns Hnn.
  pose proof (main_running_flag event_action _ _ _ _ _ Hrun) as Hflag.
  split.
  - rewrite main_app, Hrun. simpl. rewrite Hflag. simpl.
    destruct (js_get_event r) as [got event]. simpl in *.
    now destruct got.
  - intros join_result. unfold js_destroy_event_handler. simpl.
    now rewrite andb_false_r.
Qed.

(** X14: a stop request (the store of [false] into the flag that
    [js_destroy_event_handler] makes) ends the loop at its next test with
    [EXIT_SUCCESS]: no further event is read or handed to the callback,
    whatever is still queued, and the destroy call reports a clean exit if
    the join succeeds. *)
Theorem js_event_handler_main_stop_request before after h a h1 a1 :
  js_event_handler_main event_action before h a = Running h1 a1 ->
  js_event_handler_main event_action (before ++ Input_stop_request :: after) h a
  = Exited EXIT_SUCCESS (set_is_running false h1) a1 /\
  fst (js_destroy_event_handler thrd_success EXIT_SUCCESS
         (set_is_running false h1)) = JsResult_success.
Proof.
  intros Hrun.
  pose proof (main_running_flag event_action _ _ _ _ _ Hrun) as Hflag.
  split; [|reflexivity].
  rewrite main_app, Hrun. simpl. rewrite Hflag. simpl.
  now apply main_stopped.
Qed.

(** X15: while every read reports that nothing is available the loop keeps
    polling: it has not exited, has not called the callback and has not
    changed the handler. *)
Theorem js_event_handler_main_idle reads h a :
  is_running h = true ->
  forallb (fun r => JsResult_eqb (fst (js_get_event r)) JsResult_nothing)
          reads = true ->
  js_event_handler_main event_action (map Input_read reads) h a
  = Running h a.
Proof.
  intros Hflag. induction reads as [|r reads IH]; intros Hn; simpl.
  - now rewrite Hflag.
  - rewrite Hflag. simpl. simpl in Hn. apply andb_true_iff in Hn as [Hr Hn].
    destruct (js_get_event r) as [got event]. simpl in Hr.
    destruct got; try discriminate Hr. now apply IH.
Qed.

(** X16: whatever the loop is given, it returns only [EXIT_SUCCESS] or
    [EXIT_FAILURE], and with [EXIT_FAILURE] the running flag is clear; it
    never sets the flag and never changes the descriptor or the thread id
    of the handler. While it has not exited the handler is as it was and
    the flag is set. *)
Theorem js_event_handler_main_invariant inputs h a :
  match js_event_handler_main event_action inputs h a with
  | Exited c h' a' =>
      (c = EXIT_SUCCESS \/ (c = EXIT_FAILURE /\ is_running h' = false)) /\
      js h' = js h /\ thread_id h' = thread_id h /\
      (is_running h' = true -> is_running h = true)
  | Running h' a' => h' = h /\ is_running h = true
  end.
Proof.
  revert h a. induction inputs as [|i inputs IH]; intros h a; simpl.
  - destruct (is_running h) eqn:Hr; simpl; intuition (auto; congruence).
  - destruct (is_running h) eqn:Hr; simpl; [|intuition (auto; congruence)].
    destruct i as [r|].
    + destruct (js_get_event r) as [got event].
      destruct got; try (simpl; intuition (auto; congruence)).
      * destruct (event_action event a) as [acted a'].
        destruct acted; try (simpl; intuition (auto; congruence)).
        -- specialize (IH h a'). now rewrite Hr in IH.
        -- specialize (IH h a'). now rewrite Hr in IH.
      * specialize (IH h a). now rewrite Hr in IH.
    + rewrite main_stopped by reflexivity. simpl. intuition (auto; congruence).
Qed.

(** X17: with a callback that never asks to stop and never fails, the events
    that are read reach the callback one by one in the order of the reads,
    each call receiving the argument as the previous call left it. *)
Theorem js_event_handler_main_in_order events h a :
  is_running h = true ->
  (forall e a0, fst (event_action e a0) <> JsResult_stop /\
                fst (event_action e a0) <> JsResult_failure) ->
  js_event_handler_main event_action
    (map (fun e => Input_read (read_event e)) events) h a
  = Running h (fold_left (fun a0 e => snd (event_action e a0)) events a).
Proof.
  intros Hflag Hgo. revert a.
  induction events as [|e events IH]; intros a; simpl.
  - now rewrite Hflag.
  - rewrite Hflag. simpl.
    destruct (Hgo e a) as [Hs Hf].
    destruct (event_action e a) as [acted a']. simpl in *.
    destruct acted; try contradiction; apply IH.
Qed.

End EventHandlerMore.

Lemma js_event_handler_main_callback_stop_witness :
  js_event_handler_main stop_on_fifth
    (replicate 4 (Input_read (read_event (mkJsEvent 1 1 JS_EVENT_BUTTON 0)))
     ++ Input_read (read_event (mkJsEvent 2 0 JS_EVENT_BUTTON 0))
     :: [Input_read (read_error 5)])
    (mkJsEventHandler 3 1 true) 0%nat
  = Exited EXIT_SUCCESS (mkJsEventHandler 3 1 true) 5%nat /\
  js_event_handler_is_running (mkJsEventHandler 3 1 true) = true /\
  fst (js_destroy_event_handler thrd_success EXIT_SUCCESS
         (mkJsEventHandler 3 1 true)) = JsResult_success /\
  js_event_handler_is_running
    (snd (js_destroy_event_handler thrd_success EXIT_SUCCESS
            (mkJsEventHandler 3 1 true))) = false.
Proof.
  apply (js_event_handler_main_callback_stop stop_on_fifth
           (replicate 4
              (Input_read (read_event (mkJsEvent 1 1 JS_EVENT_BUTTON 0))))
           (read_event (mkJsEvent 2 0 JS_EVENT_BUTTON 0))
           [Input_read (read_error 5)]
           (mkJsEventHandler 3 1 true) 0%nat
           (mkJsEventHandler 3 1 true) 4%nat); by_evaluation.
Defined.

Lemma js_event_handler_main_source_error_witness :
  js_event_handler_main count_events
    ([Input_read (read_event (mkJsEvent 1 1 JS_EVENT_BUTTON 0));
      Input_read read_would_block]
     ++ Input_read (mkReadResult 3 0 (mkJsEvent 0 0 0 0))
     :: [Input_read (read_event (mkJsEvent 2 0 JS_EVENT_BUTTON 0))])
    (mkJsEventHandler 3 1 true) 0%nat
  = Exited EXIT_FAILURE (set_is_running false (mkJsEventHandler 3 1 true))
      1%nat /\
  forall join_result,
    fst (js_destroy_event_handler join_result EXIT_FAILURE
           (set_is_running false (mkJsEventHandler 3 1 true)))
    = JsResult_failure.
Proof.
  apply (js_event_handler_main_source_error count_events
           [Input_read (read_event (mkJsEvent 1 1 JS_EVENT_BUTTON 0));
            Input_read read_would_block]
           (mkReadResult 3 0 (mkJsEvent 0 0 0 0))
           [Input_read (read_event (mkJsEvent 2 0 JS_EVENT_BUTTON 0))]
           (mkJsEventHandler 3 1 true) 0%nat
           (mkJsEventHandler 3 1 true) 1%nat); by_evaluation.
Defined.

Lemma js_event_handler_main_stop_request_witness :
  js_event_handler_main count_events
    ([Input_read (read_event (mkJsEvent 1 1 JS_EVENT_BUTTON 0))]
     ++ Input_stop_request
     :: [Input_read (read_event (mkJsEvent 2 0 JS_EVENT_BUTTON 0))])
    (mkJsEventHandler 3 1 true) 0%nat
  = Exited EXIT_SUCCESS (set_is_running false (mkJsEventHandler 3 1 true))
      1%nat /\
  fst (js_destroy_event_handler thrd_success EXIT_SUCCESS
         (set_is_running false (mkJsEventHandler 3 1 true)))
  = JsResult_success.
Proof.
  apply (js_event_handler_main_stop_request count_events
           [Input_read (read_event (mkJsEvent 1 1 JS_EVENT_BUTTON 0))]
           [Input_read (read_event (mkJsEvent 2 0 JS_EVENT_BUTTON 0))]
           (mkJsEventHandler 3 1 true) 0%nat
           (mkJsEventHandler 3 1 true) 1%nat); by_evaluation.
Defined.

Lemma js_event_handler_main_idle_witness :
  js_event_handler_main count_events
    (map Input_read
       [read_would_block; mkReadResult 0 0 (mkJsEvent 0 0 0 0);
        read_would_block])
    (mkJsEventHandler 3 1 true) 0%nat
  = Running (mkJsEventHandler 3 1 true) 0%nat.
Proof.
  apply (js_event_handler_main_idle count_events
           [read_would_block; mkReadResult 0 0 (mkJsEvent 0 0 0 0);
            read_would_block]
           (mkJsEventHandler 3 1 true) 0%nat); by_evaluation.
Defined.

Lemma js_event_handler_main_in_order_witness :
  js_event_handler_main count_events
    (map (fun e => Input_read (read_event e)) backlog)
    (mkJsEventHandler 3 1 true) 0%nat
  = Running (mkJsEventHandler 3 1 true)
      (fold_left (fun a0 e => snd (count_events e a0)) backlog 0%nat).
Proof.
  apply (js_event_handler_main_in_order count_events backlog
           (mkJsEventHandler 3 1 true) 0%nat).
  - reflexivity.
  - intros e a0. split; intros H; discriminate H.
Defined.

(** ** The asynchronously updated state *)

Section AsyncStateMore.

Implicit Types (a : JsAsyncState) (h : JsEventHandler) (e : JsEvent).

Lemma async_action_both_ok e a :
  js_async_state_event_action thrd_success thrd_success e a
  = (fst (js_update_state (state a) e),
     {| lock := mtx_unlocked; event_handler := event_handler a;
        state := snd (js_update_state (state a) e) |}).
Proof.
  unfold js_async_state_event_action. simpl.
  now destruct (js_update_state (state a) e).
Qed.

(** X18: the callback of the asynchronous state. If the lock cannot be taken the
    event is not folded and the object is unchanged. If the lock is taken
    the event is folded; the result is the fold's result when the unlock
    succeeds too, and failure when the unlock fails, although the state has
    already taken the event. The handler inside the object is never
    touched. *)
Theorem js_async_state_event_action_outcomes locked unlocked e a :
  (locked <> thrd_success ->
   js_async_state_event_action locked unlocked e a = (JsResult_failure, a)) /\
  (locked = thrd_success -> unlocked = thrd_success ->
   js_async_state_event_action locked unlocked e a
   = (fst (js_update_state (state a) e),
      {| lock := mtx_unlocked; event_handler := event_handler a;
         state := snd (js_update_state (state a) e) |})) /\
  (locked = thrd_success -> unlocked <> thrd_success ->
   js_async_state_event_action locked unlocked e a
   = (JsResult_failure,
      {| lock := mtx_locked; event_handler := event_handler a;
         state := snd (js_update_state (state a) e) |})).
Proof.
  split; [|split].
  - intros Hl. unfold js_async_state_event_action.
    destruct a as [l eh st]. destruct locked; [contradiction| | | |];
      reflexivity.
  - intros -> ->. apply async_action_both_ok.
  - intros -> Hu. unfold js_async_state_event_action. simpl.
    destruct (js_update_state (state a) e) as [r st'].
    destruct unlocked; [contradiction| | | |]; reflexivity.
Qed.

Lemma js_async_state_event_action_outcomes_witness :
  js_async_state_event_action thrd_error thrd_success
    (mkJsEvent 9 1 JS_EVENT_BUTTON 0) blank = (JsResult_failure, blank) /\
  js_async_state_event_action thrd_success thrd_error
    (mkJsEvent 9 1 JS_EVENT_BUTTON 0) blank
  = (JsResult_failure,
     {| lock := mtx_locked; event_handler := event_handler blank;
        state := snd (js_update_state (state blank)
                        (mkJsEvent 9 1 JS_EVENT_BUTTON 0)) |}).
Proof.
  split.
  - apply (proj1 (js_async_state_event_action_outcomes thrd_error thrd_success
                    (mkJsEvent 9 1 JS_EVENT_BUTTON 0) blank)).
    intros H. discriminate H.
  - apply (proj2 (proj2 (js_async_state_event_action_outcomes
                           thrd_success thrd_error
                           (mkJsEvent 9 1 JS_EVENT_BUTTON 0) blank)));
      [reflexivity | intros H; discriminate H].
Defined.

(** The background loop with the asynchronous state's callback, as long as
    the folds succeed. *)
Lemma async_run_folds events h a s' :
  is_running h = true ->
  fold_events (state a) events = (JsResult_success, s') ->
  js_event_handler_main
    (js_async_state_event_action thrd_success thrd_success)
    (map (fun e => Input_read (read_event e)) events) h a
  = Running h
      {| lock := match events with [] => lock a | _ => mtx_unlocked end;
         event_handler := event_handler a;
         state := s' |}.
Proof.
  intros Hflag. revert a.
  induction events as [|e events IH]; intros a Hfold; simpl.
  - rewrite Hflag. simpl. simpl in Hfold. injection Hfold as <-.
    now destruct a.
  - rewrite Hflag. simpl. rewrite async_action_both_ok.
    simpl in Hfold.
    destruct (js_update_state (state a) e) as [r s1]. simpl.
    destruct r; try discriminate Hfold.
    rewrite (IH {| lock := mtx_unlocked; event_handler := event_handler a;
                   state := s1 |} Hfold).
    simpl. now destruct events.
Qed.

(** X19: run by the background loop, the callback of the asynchronous state
    folds the events in the order they are read: while every fold succeeds
    and the lock operations succeed, the loop keeps running and the state
    in the object is the fold of all events read so far; the handler in the
    object is untouched. *)
Theorem async_loop_folds_in_order events h a s' :
  is_running h = true ->
  fold_events (state a) events = (JsResult_success, s') ->
  exists a',
    js_event_handler_main
      (js_async_state_event_action thrd_success thrd_success)
      (map (fun e => Input_read (read_event e)) events) h a
    = Running h a' /\
    state a' = s' /\
    event_handler a' = event_handler a /\
    forall out,
      js_query_async_state thrd_success thrd_success a' out
      = (JsResult_success, set_lock mtx_unlocked a', s').
Proof.
  intros Hflag Hfold. eexists. split; [|split; [|split]].
  - apply (async_run_folds _ _ _ _ Hflag Hfold).
  - reflexivity.
  - reflexivity.
  - reflexivity.
Qed.

Lemma async_loop_folds_in_order_witness :
  exists a',
    js_event_handler_main
      (js_async_state_event_action thrd_success thrd_success)
      (map (fun e => Input_read (read_event e)) backlog)
      (mkJsEventHandler 3 1 true)
      (mkJsAsyncState mtx_unlocked (mkJsEventHandler 3 1 true) JsState_zero)
    = Running (mkJsEventHandler 3 1 true) a' /\
    state a' = mkJsState 12 0 [500; 0; 0; 0; 0; 0; 0; 0] /\
    event_handler a'
    = event_handler
        (mkJsAsyncState mtx_unlocked (mkJsEventHandler 3 1 true) JsState_zero)
    /\
    forall out,
      js_query_async_state thrd_success thrd_success a' out
      = (JsResult_success, set_lock mtx_unlocked a',
         mkJsState 12 0 [500; 0; 0; 0; 0; 0; 0; 0]).
Proof.
  apply (async_loop_folds_in_order backlog (mkJsEventHandler 3 1 true)
           (mkJsAsyncState mtx_unlocked (mkJsEventHandler 3 1 true)
              JsState_zero)
           (mkJsState 12 0 [500; 0; 0; 0; 0; 0; 0; 0])); reflexivity.
Defined.

(** X20: when the fold of an event fails in the background thread, the thread
    stops: the loop returns [EXIT_FAILURE] with the running flag cleared and
    later events are not read. The state keeps the folds made before, with
    the time of the rejected event; a query still succeeds and returns it;
    and [js_destroy_async_state] reports failure and destroys the lock. *)
Theorem async_loop_fold_failure good bad rest h a s1 :
  is_running h = true ->
  fold_events (state a) good = (JsResult_success, s1) ->
  fst (js_update_state s1 bad) <> JsResult_success ->
  exists a',
    js_event_handler_main
      (js_async_state_event_action thrd_success thrd_success)
      (map (fun e => Input_read (read_event e)) (good ++ bad :: rest)) h a
    = Exited EXIT_FAILURE (set_is_running false h) a' /\
    state a' = snd (js_update_state s1 bad) /\
    buttons (state a') = buttons s1 /\ axes (state a') = axes s1 /\
    (forall out,
       fst (fst (js_query_async_state thrd_success thrd_success a' out))
       = JsResult_success /\
       snd (js_query_async_state thrd_success thrd_success a' out)
       = state a') /\
    (forall join_result,
       fst (js_destroy_async_state join_result EXIT_FAILURE
              (set_event_handler (set_is_running false h) a'))
       = JsResult_failure /\
       lock (snd (js_destroy_async_state join_result EXIT_FAILURE
                    (set_event_handler (set_is_running false h) a')))
       = mtx_indeterminate).
Proof.
  intros Hflag Hfold Hbad.
  rewrite map_app, main_app, (async_run_folds _ _ _ _ Hflag Hfold).
  simpl. rewrite Hflag. simpl. rewrite async_action_both_ok. simpl.
  assert (Hrej : js_update_state s1 bad
                 = (JsResult_failure, set_time (ev_time bad) s1)).
  { revert Hbad. unfold js_update_state.
    repeat match goal with |- context [if ?c then _ else _] => destruct c end;
      simpl; intros H; try contradiction; reflexivity. }
  rewrite Hrej. simpl. eexists. split; [reflexivity|].
  simpl. repeat split.
  unfold js_destroy_async_state, js_destroy_event_handler. simpl.
  now rewrite andb_false_r.
Qed.

Lemma async_loop_fold_failure_witness :
  exists a',
    js_event_handler_main
      (js_async_state_event_action thrd_success thrd_success)
      (map (fun e => Input_read (read_event e))
           (backlog ++ mkJsEvent 30 1 JS_EVENT_AXIS 8
            :: [mkJsEvent 31 1 JS_EVENT_BUTTON 0]))
      (mkJsEventHandler 3 1 true)
      (mkJsAsyncState mtx_unlocked (mkJsEventHandler 3 1 true) JsState_zero)
    = Exited EXIT_FAILURE (set_is_running false (mkJsEventHandler 3 1 true))
        a' /\
    state a'
    = snd (js_update_state (mkJsState 12 0 [500; 0; 0; 0; 0; 0; 0; 0])
             (mkJsEvent 30 1 JS_EVENT_AXIS 8)) /\
    buttons (state a') = buttons (mkJsState 12 0 [500; 0; 0; 0; 0; 0; 0; 0]) /\
    axes (state a') = axes (mkJsState 12 0 [500; 0; 0; 0; 0; 0; 0; 0]) /\
    (forall out,
       fst (fst (js_query_async_state thrd_success thrd_success a' out))
       = JsResult_success /\
       snd (js_query_async_state thrd_success thrd_success a' out)
       = state a') /\
    (forall join_result,
       fst (js_destroy_async_state join_result EXIT_FAILURE
              (set_event_handler
                 (set_is_running false (mkJsEventHandler 3 1 true)) a'))
       = JsResult_failure /\
       lock (snd (js_destroy_async_state join_result EXIT_FAILURE
                    (set_event_handler
                       (set_is_running false (mkJsEventHandler 3 1 true)) a')))
       = mtx_indeterminate).
Proof.
  apply (async_loop_fold_failure backlog (mkJsEvent 30 1 JS_EVENT_AXIS 8)
           [mkJsEvent 31 1 JS_EVENT_BUTTON 0]
           (mkJsEventHandler 3 1 true)
           (mkJsAsyncState mtx_unlocked (mkJsEventHandler 3 1 true)
              JsState_zero)
           (mkJsState 12 0 [500; 0; 0; 0; 0; 0; 0; 0])); by_evaluation.
Defined.

End AsyncStateMore.

Section CreationMore.

Implicit Types (a : JsAsyncState) (device : Device).

(** What the object holds after creation is what the loop left. *)
Lemma create_reads_loop device initialised created fresh js0 a :
  state (created_object
           (js_create_async_state device initialised created fresh js0 a))
  = snd (fst (js_create_async_state_loop device JsState_zero)) /\
  created_device
    (js_create_async_state device initialised created fresh js0 a)
  = snd (js_create_async_state_loop device JsState_zero).
Proof.
  unfold js_create_async_state. simpl.
  destruct (js_create_async_state_loop device JsState_zero) as [[x s] d].
  destruct x; [|split; reflexivity].
  destruct initialised, created; split; reflexivity.
Qed.

Lemma loop_leaves_suffix device s :
  exists consumed,
    device = consumed ++ snd (js_create_async_state_loop device s).
Proof.
  revert s. induction device as [|r device IH]; intros s.
  - now exists [].
  - simpl. destruct (js_get_event r) as [got event].
    destruct got; try (now exists [r]).
    destruct (js_update_state s event) as [u s'].
    destruct u; simpl; try (now exists [r]).
    destruct (CInt.truthy (Z.land (ev_type event) JS_EVENT_INIT));
      [|now exists [r]].
    destruct (IH s') as [consumed Hc]. exists (r :: consumed).
    simpl. now rewrite <- Hc.
Qed.

(** X21: how [js_create_async_state] ends. It returns success or failure, and
    success exactly leaves an unlocked mutex, a handler for the given
    descriptor that is marked running, and the thread [thrd_create]
    started. A failure, whatever its cause, leaves no thread and no mutex
    that this call initialised: the mutex is as it was found, or has been
    destroyed again. *)
Theorem js_create_async_state_outcome
    device initialised created fresh js0 a :
  (created_result
     (js_create_async_state device initialised created fresh js0 a)
   = JsResult_success /\
   lock (created_object
           (js_create_async_state device initialised created fresh js0 a))
   = mtx_unlocked /\
   event_handler
     (created_object
        (js_create_async_state device initialised created fresh js0 a))
   = {| js := js0; thread_id := fresh; is_running := true |} /\
   created_task
     (js_create_async_state device initialised created fresh js0 a)
   = Some fresh) \/
  (created_result
     (js_create_async_state device initialised created fresh js0 a)
   = JsResult_failure /\
   created_task
     (js_create_async_state device initialised created fresh js0 a) = None /\
   (lock (created_object
            (js_create_async_state device initialised created fresh js0 a))
    = lock a \/
    lock (created_object
            (js_create_async_state device initialised created fresh js0 a))
    = mtx_indeterminate)).
Proof.
  unfold js_create_async_state. simpl.
  destruct (js_create_async_state_loop device JsState_zero) as [[x s] d].
  destruct x.
  - destruct initialised, created; simpl;
      first [ left; repeat split; reflexivity
            | right; repeat split; first [now left | now right] ].
  - right. simpl. repeat split. now left.
Qed.

(** X22: the state [js_create_async_state] builds and the answers it leaves
    unread are decided by the device alone: they do not depend on what the
    object held before, on the descriptor, or on how the lock and thread
    creation end. The unread answers are a tail of the device, so nothing
    is skipped or reordered. *)
Theorem js_create_async_state_reads_device
    device initialised created fresh js0 a initialised' created' fresh' js0' a' :
  state (created_object
           (js_create_async_state device initialised created fresh js0 a))
  = state (created_object
             (js_create_async_state device initialised' created' fresh' js0' a'))
  /\
  created_device
    (js_create_async_state device initialised created fresh js0 a)
  = created_device
      (js_create_async_state device initialised' created' fresh' js0' a') /\
  exists consumed,
    device = consumed
             ++ created_device
                  (js_create_async_state device initialised created fresh js0 a).
Proof.
  destruct (create_reads_loop device initialised created fresh js0 a)
    as [Hs Hd].
  destruct (create_reads_loop device initialised' created' fresh' js0' a')
    as [Hs' Hd'].
  rewrite Hs, Hs', Hd, Hd'. repeat split.
  apply loop_leaves_suffix.
Qed.

(** The drain loop on a device that delivers [events], all of which fold:
    it stops somewhere, having folded the events before that point. *)
Lemma loop_splits_events events s0 s :
  fold_events s0 events = (JsResult_success, s) ->
  exists s_mid later,
    js_create_async_state_loop (map read_event events) s0
    = (Drain_done, s_mid, map read_event later) /\
    fold_events s_mid later = (JsResult_success, s).
Proof.
  revert s0. induction events as [|e events IH]; intros s0 Hfold.
  - exists s0, []. split; [reflexivity | exact Hfold].
  - simpl in Hfold. simpl.
    destruct (js_update_state s0 e) as [u s1].
    destruct u; try discriminate Hfold. simpl.
    destruct (CInt.truthy (Z.land (ev_type e) JS_EVENT_INIT)).
    + apply IH, Hfold.
    + exists s1, events. split; [reflexivity | exact Hfold].
Qed.

(** X23: no event is lost between creation and the background thread. For a
    device that delivers a sequence of events which all fold, whatever
    their initialization flags: creation succeeds (the lock and the thread
    being available), and once the background loop has read what creation
    left unread, the state is the fold of the whole sequence from the zero
    state. A stop request then ends the loop cleanly, and
    [js_destroy_async_state] reports success and destroys the lock. *)
Theorem create_then_loop_folds_all events s fresh js0 a :
  fold_events JsState_zero events = (JsResult_success, s) ->
  created_result
    (js_create_async_state (map read_event events)
       thrd_success thrd_success fresh js0 a) = JsResult_success /\
  exists a',
    js_event_handler_main
      (js_async_state_event_action thrd_success thrd_success)
      (map Input_read
         (created_device
            (js_create_async_state (map read_event events)
               thrd_success thrd_success fresh js0 a)))
      (event_handler
         (created_object
            (js_create_async_state (map read_event events)
               thrd_success thrd_success fresh js0 a)))
      (created_object
         (js_create_async_state (map read_event events)
            thrd_success thrd_success fresh js0 a))
    = Running {| js := js0; thread_id := fresh; is_running := true |} a' /\
    state a' = s /\
    js_event_handler_main
      (js_async_state_event_action thrd_success thrd_success)
      [Input_stop_request]
      {| js := js0; thread_id := fresh; is_running := true |} a'
    = Exited EXIT_SUCCESS
        {| js := js0; thread_id := fresh; is_running := false |} a' /\
    fst (js_destroy_async_state thrd_success EXIT_SUCCESS
           (set_event_handler
              {| js := js0; thread_id := fresh; is_running := false |} a'))
    = JsResult_success /\
    lock (snd (js_destroy_async_state thrd_success EXIT_SUCCESS
                 (set_event_handler
                    {| js := js0; thread_id := fresh; is_running := false |}
                    a')))
    = mtx_indeterminate /\
    state (snd (js_destroy_async_state thrd_success EXIT_SUCCESS
                  (set_event_handler
                     {| js := js0; thread_id := fresh; is_running := false |}
                     a')))
    = s.
Proof.
  intros Hfold.
  destruct (loop_splits_events events JsState_zero s Hfold)
    as (s_mid & later & Hloop & Hlater).
  unfold js_create_async_state, created_result, created_device,
    created_object. simpl. rewrite Hloop. simpl.
  split; [reflexivity|].
  rewrite map_map.
  eexists. split.
  { apply async_run_folds; [reflexivity | exact Hlater]. }
  simpl. repeat split.
Qed.

Lemma create_then_loop_folds_all_witness :
  created_result
    (js_create_async_state
       (map read_event (backlog ++ [mkJsEvent 20 1 JS_EVENT_BUTTON 0;
                                    mkJsEvent 21 (-9) JS_EVENT_AXIS 7]))
       thrd_success thrd_success 1 3 blank) = JsResult_success /\
  created_device
    (js_create_async_state
       (map read_event (backlog ++ [mkJsEvent 20 1 JS_EVENT_BUTTON 0;
                                    mkJsEvent 21 (-9) JS_EVENT_AXIS 7]))
       thrd_success thrd_success 1 3 blank)
  = [read_event (mkJsEvent 21 (-9) JS_EVENT_AXIS 7)].
Proof.
  split.
  - apply (create_then_loop_folds_all
             (backlog ++ [mkJsEvent 20 1 JS_EVENT_BUTTON 0;
                          mkJsEvent 21 (-9) JS_EVENT_AXIS 7])
             (mkJsState 21 1 [500; 0; 0; 0; 0; 0; 0; -9]) 1 3 blank).
    reflexivity.
  - reflexivity.
Defined.

End CreationMore.

(** ** The demo program *)

Section Main.

Lemma main_loop_finished queries :
  fst (main_loop queries)
  = forallb (fun q => JsResult_eqb q JsResult_success) queries.
Proof.
  induction queries as [|q queries IH]; [reflexivity|]. simpl.
  destruct (JsResult_eqb q JsResult_success); simpl; [|reflexivity].
  destruct (main_loop queries). exact IH.
Qed.

Lemma main_loop_no_release queries :
  forallb (fun c => negb (is_release c)) (snd (main_loop queries)) = true.
Proof.
  induction queries as [|q queries IH]; [reflexivity|]. simpl.
  destruct (JsResult_eqb q JsResult_success); simpl; [|reflexivity].
  destruct (main_loop queries). exact IH.
Qed.

(** X24: [main] gives back exactly what it holds, once, and last: on every
    path, the calls it makes end with the release of the asynchronous
    state, the joystick and the signal handler, in this order and each only
    if it was obtained; no release is made before, and what was obtained
    was taken by an earlier call. *)
Theorem main_releases_what_it_holds argc argv env :
  exists body,
    snd (main argc argv env)
    = body
      ++ (if holds_after_startup argc env Resource_async_state
          then [Call_js_destroy_async_state] else [])
      ++ (if holds_after_startup argc env Resource_joystick
          then [Call_js_disconnect] else [])
      ++ (if holds_after_startup argc env Resource_signal_handler
          then [Call_destroy_signal_handler] else []) /\
    forallb (fun c => negb (is_release c)) body = true /\
    forall r,
      holds_after_startup argc env r = true ->
      existsb (fun c => takes c r) body = true.
Proof.
  unfold main, holds_after_startup.
  destruct (argc >? 2); simpl.
  { eexists. split; [symmetry; apply app_nil_r|].
    split; [reflexivity|]. intros []; discriminate. }
  destruct (sigaddset_return env =? 0); simpl.
  2:{ eexists. split; [symmetry; apply app_nil_r|].
      split; [reflexivity|]. intros []; discriminate. }
  destruct (create_signal_handler_return env); simpl.
  2:{ eexists. split; [symmetry; apply app_nil_r|].
      split; [reflexivity|]. intros []; discriminate. }
  destruct (js_connect_return env <? 0); simpl.
  { exists [Call_create_signal_handler;
            Call_js_connect
              (if argc =? 1 then js_std_pathname else nth 1 argv ""%string);
            Call_connect_error_message].
    split; [reflexivity|]. split; [reflexivity|].
    intros []; simpl; intros H; try discriminate H; reflexivity. }
  destruct (JsResult_eqb (js_get_properties_result env) JsResult_success);
    simpl.
  2:{ exists [Call_create_signal_handler;
              Call_js_connect
                (if argc =? 1 then js_std_pathname else nth 1 argv ""%string);
              Call_js_get_properties; Call_properties_error_message].
      split; [reflexivity|]. split; [reflexivity|].
      intros []; simpl; intros H; try discriminate H; reflexivity. }
  destruct (JsResult_eqb (js_create_async_state_result env) JsResult_success);
    simpl.
  2:{ exists [Call_create_signal_handler;
              Call_js_connect
                (if argc =? 1 then js_std_pathname else nth 1 argv ""%string);
              Call_js_get_properties; Call_js_display_properties;
              Call_js_create_async_state; Call_async_state_error_message].
      split; [reflexivity|]. split; [reflexivity|].
      intros []; simpl; intros H; try discriminate H; reflexivity. }
  pose proof (main_loop_no_release (queries env)) as Hloop.
  destruct (main_loop (queries env)) as [finished calls]. simpl in *.
  exists ([Call_create_signal_handler;
           Call_js_connect
             (if argc =? 1 then js_std_pathname else nth 1 argv ""%string);
           Call_js_get_properties; Call_js_display_properties;
           Call_js_create_async_state] ++ calls).
  split; [reflexivity|]. split; [exact Hloop|].
  intros []; reflexivity.
Qed.

(** X25: [main] exits with [EXIT_SUCCESS] exactly when it was started with at
    most one argument, every start-up step succeeded and every query of the
    main loop succeeded before the interrupt; in every other case it exits
    with [EXIT_FAILURE]. *)
Theorem main_exit_status argc argv env :
  (fst (main argc argv env) = EXIT_SUCCESS <->
   argc <= 2 /\
   sigaddset_return env = 0 /\
   create_signal_handler_return env = true /\
   0 <= js_connect_return env /\
   js_get_properties_result env = JsResult_success /\
   js_create_async_state_result env = JsResult_success /\
   Forall (fun q => q = JsResult_success) (queries env)) /\
  (fst (main argc argv env) = EXIT_SUCCESS \/
   fst (main argc argv env) = EXIT_FAILURE).
Proof.
  assert (Hq : forallb (fun q => JsResult_eqb q JsResult_success) (queries env)
               = true
               <-> Forall (fun q => q = JsResult_success) (queries env)).
  { induction (queries env) as [|q qs IH]; simpl.
    - split; [constructor | reflexivity].
    - rewrite andb_true_iff, Forall_cons, IH.
      destruct q; simpl; intuition (auto; discriminate). }
  unfold main.
  destruct (Z.gtb_spec argc 2); simpl.
  { split; [|now right]. split; [discriminate | lia]. }
  destruct (Z.eqb_spec (sigaddset_return env) 0); simpl.
  2:{ split; [|now right]. split; [discriminate | tauto]. }
  destruct (create_signal_handler_return env); simpl.
  2:{ split; [|now right]. split; [discriminate|].
      intros (_ & _ & Hx & _). discriminate Hx. }
  destruct (Z.ltb_spec (js_connect_return env) 0); simpl.
  { split; [|now right]. split; [discriminate | lia]. }
  destruct (js_get_properties_result env); simpl;
    try (split; [|now right]; split; [discriminate|];
         intros (_ & _ & _ & _ & Hx & _); discriminate Hx).
  destruct (js_create_async_state_result env); simpl;
    try (split; [|now right]; split; [discriminate|];
         intros (_ & _ & _ & _ & _ & Hx & _); discriminate Hx).
  pose proof (main_loop_finished (queries env)) as Hfin.
  destruct (main_loop (queries env)) as [finished calls]. simpl in *.
  rewrite <- Hq, <- Hfin.
  destruct finished; simpl.
  - split; [|now left]. split; [|reflexivity]. intros _. repeat split; lia.
  - split; [|now right]. split; [discriminate|].
    intros (_ & _ & _ & _ & _ & _ & Hx). discriminate Hx.
Qed.

End Main.

Lemma main_releases_what_it_holds_witness :
  exists body,
    snd (main 1 [] (mkMainEnv 0 true 4 JsResult_failure JsResult_success []))
    = body
      ++ (if holds_after_startup 1
               (mkMainEnv 0 true 4 JsResult_failure JsResult_success [])
               Resource_async_state
          then [Call_js_destroy_async_state] else [])
      ++ (if holds_after_startup 1
               (mkMainEnv 0 true 4 JsResult_failure JsResult_success [])
               Resource_joystick
          then [Call_js_disconnect] else [])
      ++ (if holds_after_startup 1
               (mkMainEnv 0 true 4 JsResult_failure JsResult_success [])
               Resource_signal_handler
          then [Call_destroy_signal_handler] else []) /\
    existsb (fun c => takes c Resource_joystick) body = true.
Proof.
  destruct (main_releases_what_it_holds 1 []
              (mkMainEnv 0 true 4 JsResult_failure JsResult_success []))
    as (body & Hcalls & _ & Htaken).
  exists body. split; [exact Hcalls|].
  apply Htaken. reflexivity.
Defined.

Lemma js_event_handler_main_invariant_witness :
  is_running (mkJsEventHandler 3 1 true) = true.
Proof.
  pose proof (js_event_handler_main_invariant stop_on_fifth
                (replicate 5
                   (Input_read (read_event (mkJsEvent 1 1 JS_EVENT_BUTTON 0))))
                (mkJsEventHandler 3 1 true) 0%nat) as Hinv.
  vm_compute in Hinv.
  apply Hinv. reflexivity.
Defined.

(** The demo program on a device that cannot be opened, and on a run that
    is interrupted after two queries. *)
Example main_connect_fails :
  main 2 ["js"%string; "/dev/input/js1"%string]
    (mkMainEnv 0 true (-1) JsResult_success JsResult_success [])
  = (EXIT_FAILURE,
     [Call_create_signal_handler; Call_js_connect "/dev/input/js1"%string;
      Call_connect_error_message; Call_destroy_signal_handler]).
Proof. reflexivity. Qed.

Example main_two_queries :
  main 1 ["js"%string]
    (mkMainEnv 0 true 4 JsResult_success JsResult_success
       [JsResult_success; JsResult_success])
  = (EXIT_SUCCESS,
     [Call_create_signal_handler; Call_js_connect js_std_pathname;
      Call_js_get_properties; Call_js_display_properties;
      Call_js_create_async_state;
      Call_js_query_async_state; Call_print_state;
      Call_js_query_async_state; Call_print_state;
      Call_js_destroy_async_state; Call_js_disconnect;
      Call_destroy_signal_handler]).
Proof. reflexivity. Qed.
